(** * Adaptive Supply Controller of the SmartPath tutor

    A shallow embedding of the controller logic of [src/App.tsx] and of the
    question service of [src/services/geminiService.ts]:

    - [Difficulty]: [calculateNewDifficulty], computed on IEEE-754 binary64
      numbers as JavaScript does, next to the formula of the specification
      on exact rationals;
    - [Gemini]: what [generateAdaptiveQuestions] settles to, as a function of
      the API key and of the answer of the generative backend;
    - [App]: the React state of the component, its event handlers as state
      transformers, the recovery effect, and the transition system they span;
    - [Scenario], [Samples]: a few concrete sessions, used to exercise the
      theorems;
    - [Invariants], [Ladder]: further invariants of the session and of the
      plan;
    - [Chart], [Services], [Explain], [Streak]: the proficiency chart, the
      plan, material and explanation services, the explanation card and the
      daily streak;
    - [Legacy]: the earlier revision of the component.

    React is modelled at the granularity of one synchronous continuation:
    every [setX] issued by a handler (or by the code after an [await]) lands
    in one render, state variables read by a handler are those of the render
    it was created in, the ref [prefetchingRef] is read and written at once,
    and effects run after the render. *)

From Stdlib Require Import ZArith QArith Qround Floats Bool List String Ascii Lia.
From Stdlib Require Import DecimalString DecimalN DecimalNat.
Import ListNotations.

Local Open Scope Z_scope.

(** ** JavaScript numbers *)

Module JS.

(** An integer as a JavaScript number (exact below 2^53). *)
Definition Z2F (z : Z) : float :=
  if z <? 0 then PrimFloat.opp (PrimFloat.of_uint63 (Uint63.of_Z (- z)))
  else PrimFloat.of_uint63 (Uint63.of_Z z).

(** [Math.max] and [Math.min] on two arguments: NaN is contagious and
    [-0] is smaller than [+0]. *)
Definition Math_max (a b : float) : float :=
  if PrimFloat.is_nan a || PrimFloat.is_nan b then PrimFloat.nan
  else if PrimFloat.ltb a b then b
  else if PrimFloat.ltb b a then a
  else if PrimFloat.get_sign a then b else a.

Definition Math_min (a b : float) : float :=
  if PrimFloat.is_nan a || PrimFloat.is_nan b then PrimFloat.nan
  else if PrimFloat.ltb a b then a
  else if PrimFloat.ltb b a then b
  else if PrimFloat.get_sign a then a else b.

(** [Math.round]: the integer closest to [x], ties towards +infinity,
    computed exactly from the mantissa and exponent of [x]; NaN, the
    infinities, the zeros and the integral values are returned as they
    are, and a negative [x >= -0.5] gives [-0]. *)
Definition Math_round (x : float) : float :=
  match Prim2SF x with
  | S754_finite s m e =>
      if 0 <=? e then x
      else
        let v := if s then Z.neg m else Z.pos m in
        let n := (2 * v + 2 ^ (- e)) / 2 ^ (1 - e) in
        if n =? 0 then (if s then PrimFloat.opp PrimFloat.zero else PrimFloat.zero)
        else Z2F n
  | _ => x
  end.

End JS.

(** ** Difficulty Controller *)

Module Difficulty.
Import JS.

(** [calculateNewDifficulty] of [App.tsx]. *)
Definition calculateNewDifficulty (current : float) (isCorrect : bool) : float :=
  if isCorrect then
    let boost := Math_max 2 (10 * (1 - current / 110))%float in
    Math_min 100 (Math_round (current + boost)%float)
  else
    let penalty := Math_max 3 (8 * (current / 100))%float in
    Math_max 0 (Math_round (current - penalty)%float).

(** The update rule as the specification words it, on exact rationals:
    the boost and the penalty are rounded, the clamp comes last. *)
Definition round_nearest (q : Q) : Z := Qfloor (q + (1 # 2))%Q.

Definition boost_spec (current : Z) : Z :=
  Z.max 2 (round_nearest (10 * (1 - inject_Z current / 110))%Q).

Definition penalty_spec (current : Z) : Z :=
  Z.max 3 (round_nearest (8 * inject_Z current / 100)%Q).

Definition nextLevel_spec (current : Z) (correct : bool) : Z :=
  if correct then Z.min 100 (current + boost_spec current)
  else Z.max 0 (current - penalty_spec current).

(** A value is a tie when it lies half-way between two integers; on such
    a value the rounding conventions disagree. *)
Definition is_tie (q : Q) : bool := Qeq_bool (inject_Z (Qfloor q) + (1 # 2))%Q q.

End Difficulty.

(** ** Data model ([types.ts])

    Field names are those of the interfaces; where two interfaces share a
    name, the later one is prefixed ([hCorrectIndex], [dayTopic],
    [dayStatus], [dfFocus]). Indices, day numbers and timestamps are
    integers; the difficulty, on which the code does arithmetic, is a
    binary64 number. *)

Record Question : Type := mkQuestion {
  text : string;
  options : list string;
  correctIndex : Z;
  explanation : string;
  topicSubCategory : string
}.

Record QuizHistoryItem : Type := mkQuizHistoryItem {
  question : string;
  userAnswerIndex : Z;
  hCorrectIndex : Z;
  isCorrect : bool;
  timestamp : Z;
  difficultyBefore : float;
  difficultyAfter : float
}.

Inductive DayStatus : Type := locked | current | completed.

(** [StudyPlanDay]; the field [status] is optional in the interface. *)
Record StudyPlanDay : Type := mkStudyPlanDay {
  day : Z;
  dayTopic : string;
  activities : list string;
  focus : string;
  dayStatus : option DayStatus
}.

Record StudyMaterialContent : Type := mkStudyMaterialContent {
  markdown : string
}.

Inductive AppStatus : Type := IDLE | MATERIAL_VIEW | QUIZ | SUMMARY | ERROR.

(** A promise once settled. *)
Inductive Settled (A : Type) : Type :=
| Fulfilled (a : A)
| Rejected (message : string).
Arguments Fulfilled {A} a.
Arguments Rejected {A} message.

(** ** Content Source ([services/geminiService.ts]) *)

Module Gemini.

(** What the generative backend does with one [generateContent] call, as
    far as the service can tell: the call throws, the response has no
    text, the text is not JSON, or it parses to a list of questions. *)
Inductive Response : Type :=
| GenerateThrows
| TextMissing
| TextUnparsable
| TextParsed (questionsData : list Question).

(** The question returned "in case of total failure". *)
Definition fallbackQuestion : Question :=
  {| text := "联系 AI 导师时遇到错误。请重试。";
     options := ["重试"; "检查网络"; "重新加载"; "等待"]%string;
     correctIndex := 0;
     explanation := "网络或 API 出现错误。";
     topicSubCategory := "错误处理" |}.

(** The [try] block of [generateAdaptiveQuestions]: [inl] is a thrown
    error, [inr] the value returned. *)
Definition tryGenerate (r : Response) : string + list Question :=
  match r with
  | GenerateThrows => inl "generateContent failed"%string
  | TextMissing => inl "Empty response from AI"%string
  | TextUnparsable => inl "JSON.parse failed"%string
  | TextParsed questionsData => inr questionsData
  end.

(** [generateAdaptiveQuestions]: the key is checked before the [try], so
    a missing key rejects the promise; every error thrown inside the [try]
    is caught and answered with the fallback question. The arguments only
    shape the prompt sent to the backend, whose answer is [r]. *)
Definition generateAdaptiveQuestions (apiKey : string) (topic : string)
    (currentDifficulty : float) (previousTopics : list string) (count : Z)
    (sourceMaterial : option string) (r : Response)
  : Settled (list Question) :=
  if String.eqb apiKey "" then Rejected "API Key is missing."
  else
    match tryGenerate r with
    | inr questionsData => Fulfilled questionsData
    | inl _ => Fulfilled [fallbackQuestion]
    end.

End Gemini.

(** ** The component state and its handlers ([App.tsx]) *)

Module App.
Import Difficulty.

Record DayFocus : Type := mkDayFocus {
  subTopic : string;
  dfFocus : string
}.

(** One call of [generateAdaptiveQuestions] made by
    [fetchQuestionsToQueue], with the [isInitialLoad] its continuation
    closed over. *)
Record FetchCall : Type := mkFetchCall {
  fcTopic : string;
  fcDifficulty : float;
  fcPreviousTopics : list string;
  fcCount : Z;
  fcSourceMaterial : option string;
  fcIsInitialLoad : bool
}.

(** The [useState] cells and the ref of the component that the controller
    reads or writes, and [pending]: the question requests whose promise
    has not settled yet. The streak, the selection popup and the
    explanation card are presentation state and are left out. *)
Record State : Type := mkState {
  status : AppStatus;
  topic : string;
  difficulty : float;
  currentQuestion : option Question;
  history : list QuizHistoryItem;
  questionQueue : list Question;
  isLoadingInitial : bool;
  isPrefetching : bool;
  selectedOption : option Z;
  feedbackShown : bool;
  showPlanModal : bool;
  studyPlan : list StudyPlanDay;
  isGeneratingPlan : bool;
  activePlanDay : option Z;
  studyMaterial : option StudyMaterialContent;
  activeMaterialContext : option string;
  isLoadingMaterial : bool;
  currentDayFocus : option DayFocus;
  prefetchingRef : bool;
  pending : list FetchCall
}.

Definition setStatus (v : AppStatus) (s : State) : State :=
  mkState v (topic s) (difficulty s) (currentQuestion s) (history s)
    (questionQueue s) (isLoadingInitial s) (isPrefetching s)
    (selectedOption s) (feedbackShown s) (showPlanModal s) (studyPlan s)
    (isGeneratingPlan s) (activePlanDay s) (studyMaterial s)
    (activeMaterialContext s) (isLoadingMaterial s) (currentDayFocus s)
    (prefetchingRef s) (pending s).

Definition setTopic (v : string) (s : State) : State :=
  mkState (status s) v (difficulty s) (currentQuestion s) (history s)
    (questionQueue s) (isLoadingInitial s) (isPrefetching s)
    (selectedOption s) (feedbackShown s) (showPlanModal s) (studyPlan s)
    (isGeneratingPlan s) (activePlanDay s) (studyMaterial s)
    (activeMaterialContext s) (isLoadingMaterial s) (currentDayFocus s)
    (prefetchingRef s) (pending s).

Definition setDifficulty (v : float) (s : State) : State :=
  mkState (status s) (topic s) v (currentQuestion s) (history s)
    (questionQueue s) (isLoadingInitial s) (isPrefetching s)
    (selectedOption s) (feedbackShown s) (showPlanModal s) (studyPlan s)
    (isGeneratingPlan s) (activePlanDay s) (studyMaterial s)
    (activeMaterialContext s) (isLoadingMaterial s) (currentDayFocus s)
    (prefetchingRef s) (pending s).

Definition setCurrentQuestion (v : option Question) (s : State) : State :=
  mkState (status s) (topic s) (difficulty s) v (history s)
    (questionQueue s) (isLoadingInitial s) (isPrefetching s)
    (selectedOption s) (feedbackShown s) (showPlanModal s) (studyPlan s)
    (isGeneratingPlan s) (activePlanDay s) (studyMaterial s)
    (activeMaterialContext s) (isLoadingMaterial s) (currentDayFocus s)
    (prefetchingRef s) (pending s).

Definition setHistory (v : list QuizHistoryItem) (s : State) : State :=
  mkState (status s) (topic s) (difficulty s) (currentQuestion s) v
    (questionQueue s) (isLoadingInitial s) (isPrefetching s)
    (selectedOption s) (feedbackShown s) (showPlanModal s) (studyPlan s)
    (isGeneratingPlan s) (activePlanDay s) (studyMaterial s)
    (activeMaterialContext s) (isLoadingMaterial s) (currentDayFocus s)
    (prefetchingRef s) (pending s).

Definition setQuestionQueue (v : list Question) (s : State) : State :=
  mkState (status s) (topic s) (difficulty s) (currentQuestion s)
    (history s) v (isLoadingInitial s) (isPrefetching s) (selectedOption s)
    (feedbackShown s) (showPlanModal s) (studyPlan s) (isGeneratingPlan s)
    (activePlanDay s) (studyMaterial s) (activeMaterialContext s)
    (isLoadingMaterial s) (currentDayFocus s) (prefetchingRef s) (pending s).

Definition setIsLoadingInitial (v : bool) (s : State) : State :=
  mkState (status s) (topic s) (difficulty s) (currentQuestion s)
    (history s) (questionQueue s) v (isPrefetching s) (selectedOption s)
    (feedbackShown s) (showPlanModal s) (studyPlan s) (isGeneratingPlan s)
    (activePlanDay s) (studyMaterial s) (activeMaterialContext s)
    (isLoadingMaterial s) (currentDayFocus s) (prefetchingRef s) (pending s).

Definition setIsPrefetching (v : bool) (s : State) : State :=
  mkState (status s) (topic s) (difficulty s) (currentQuestion s)
    (history s) (questionQueue s) (isLoadingInitial s) v (selectedOption s)
    (feedbackShown s) (showPlanModal s) (studyPlan s) (isGeneratingPlan s)
    (activePlanDay s) (studyMaterial s) (activeMaterialContext s)
    (isLoadingMaterial s) (currentDayFocus s) (prefetchingRef s) (pending s).

Definition setSelectedOption (v : option Z) (s : State) : State :=
  mkState (status s) (topic s) (difficulty s) (currentQuestion s)
    (history s) (questionQueue s) (isLoadingInitial s) (isPrefetching s) v
    (feedbackShown s) (showPlanModal s) (studyPlan s) (isGeneratingPlan s)
    (activePlanDay s) (studyMaterial s) (activeMaterialContext s)
    (isLoadingMaterial s) (currentDayFocus s) (prefetchingRef s) (pending s).

Definition setFeedbackShown (v : bool) (s : State) : State :=
  mkState (status s) (topic s) (difficulty s) (currentQuestion s)
    (history s) (questionQueue s) (isLoadingInitial s) (isPrefetching s)
    (selectedOption s) v (showPlanModal s) (studyPlan s)
    (isGeneratingPlan s) (activePlanDay s) (studyMaterial s)
    (activeMaterialContext s) (isLoadingMaterial s) (currentDayFocus s)
    (prefetchingRef s) (pending s).

Definition setShowPlanModal (v : bool) (s : State) : State :=
  mkState (status s) (topic s) (difficulty s) (currentQuestion s)
    (history s) (questionQueue s) (isLoadingInitial s) (isPrefetching s)
    (selectedOption s) (feedbackShown s) v (studyPlan s)
    (isGeneratingPlan s) (activePlanDay s) (studyMaterial s)
    (activeMaterialContext s) (isLoadingMaterial s) (currentDayFocus s)
    (prefetchingRef s) (pending s).

Definition setStudyPlan (v : list StudyPlanDay) (s : State) : State :=
  mkState (status s) (topic s) (difficulty s) (currentQuestion s)
    (history s) (questionQueue s) (isLoadingInitial s) (isPrefetching s)
    (selectedOption s) (feedbackShown s) (showPlanModal s) v
    (isGeneratingPlan s) (activePlanDay s) (studyMaterial s)
    (activeMaterialContext s) (isLoadingMaterial s) (currentDayFocus s)
    (prefetchingRef s) (pending s).

Definition setIsGeneratingPlan (v : bool) (s : State) : State :=
  mkState (status s) (topic s) (difficulty s) (currentQuestion s)
    (history s) (questionQueue s) (isLoadingInitial s) (isPrefetching s)
    (selectedOption s) (feedbackShown s) (showPlanModal s) (studyPlan s) v
    (activePlanDay s) (studyMaterial s) (activeMaterialContext s)
    (isLoadingMaterial s) (currentDayFocus s) (prefetchingRef s) (pending s).

Definition setActivePlanDay (v : option Z) (s : State) : State :=
  mkState (status s) (topic s) (difficulty s) (currentQuestion s)
    (history s) (questionQueue s) (isLoadingInitial s) (isPrefetching s)
    (selectedOption s) (feedbackShown s) (showPlanModal s) (studyPlan s)
    (isGeneratingPlan s) v (studyMaterial s) (activeMaterialContext s)
    (isLoadingMaterial s) (currentDayFocus s) (prefetchingRef s) (pending s).

Definition setStudyMaterial (v : option StudyMaterialContent) (s : State) : State :=
  mkState (status s) (topic s) (difficulty s) (currentQuestion s)
    (history s) (questionQueue s) (isLoadingInitial s) (isPrefetching s)
    (selectedOption s) (feedbackShown s) (showPlanModal s) (studyPlan s)
    (isGeneratingPlan s) (activePlanDay s) v (activeMaterialContext s)
    (isLoadingMaterial s) (currentDayFocus s) (prefetchingRef s) (pending s).

Definition setActiveMaterialContext (v : option string) (s : State) : State :=
  mkState (status s) (topic s) (difficulty s) (currentQuestion s)
    (history s) (questionQueue s) (isLoadingInitial s) (isPrefetching s)
    (selectedOption s) (feedbackShown s) (showPlanModal s) (studyPlan s)
    (isGeneratingPlan s) (activePlanDay s) (studyMaterial s) v
    (isLoadingMaterial s) (currentDayFocus s) (prefetchingRef s) (pending s).

Definition setIsLoadingMaterial (v : bool) (s : State) : State :=
  mkState (status s) (topic s) (difficulty s) (currentQuestion s)
    (history s) (questionQueue s) (isLoadingInitial s) (isPrefetching s)
    (selectedOption s) (feedbackShown s) (showPlanModal s) (studyPlan s)
    (isGeneratingPlan s) (activePlanDay s) (studyMaterial s)
    (activeMaterialContext s) v (currentDayFocus s) (prefetchingRef s)
    (pending s).

Definition setCurrentDayFocus (v : option DayFocus) (s : State) : State :=
  mkState (status s) (topic s) (difficulty s) (currentQuestion s)
    (history s) (questionQueue s) (isLoadingInitial s) (isPrefetching s)
    (selectedOption s) (feedbackShown s) (showPlanModal s) (studyPlan s)
    (isGeneratingPlan s) (activePlanDay s) (studyMaterial s)
    (activeMaterialContext s) (isLoadingMaterial s) v (prefetchingRef s)
    (pending s).

Definition setPrefetchingRef (v : bool) (s : State) : State :=
  mkState (status s) (topic s) (difficulty s) (currentQuestion s)
    (history s) (questionQueue s) (isLoadingInitial s) (isPrefetching s)
    (selectedOption s) (feedbackShown s) (showPlanModal s) (studyPlan s)
    (isGeneratingPlan s) (activePlanDay s) (studyMaterial s)
    (activeMaterialContext s) (isLoadingMaterial s) (currentDayFocus s) v
    (pending s).

Definition setPending (v : list FetchCall) (s : State) : State :=
  mkState (status s) (topic s) (difficulty s) (currentQuestion s)
    (history s) (questionQueue s) (isLoadingInitial s) (isPrefetching s)
    (selectedOption s) (feedbackShown s) (showPlanModal s) (studyPlan s)
    (isGeneratingPlan s) (activePlanDay s) (studyMaterial s)
    (activeMaterialContext s) (isLoadingMaterial s) (currentDayFocus s)
    (prefetchingRef s) v.

Notation "s |> f" := (f s) (at level 45, left associativity, only parsing).

Definition initialState : State :=
  {| status := IDLE; topic := ""; difficulty := 50;
     currentQuestion := None; history := []; questionQueue := [];
     isLoadingInitial := false; isPrefetching := false;
     selectedOption := None; feedbackShown := false;
     showPlanModal := false; studyPlan := []; isGeneratingPlan := false;
     activePlanDay := None; studyMaterial := None;
     activeMaterialContext := None; isLoadingMaterial := false;
     currentDayFocus := None; prefetchingRef := false; pending := [] |}.

(** *** JavaScript idioms used by the handlers *)

(** [l.slice(-n)]. *)
Definition sliceLast {A : Type} (n : nat) (l : list A) : list A :=
  skipn (List.length l - n)%nat l.

Definition isWhiteSpace (c : ascii) : bool :=
  match c with
  | " "%char | "009"%char | "010"%char | "011"%char | "012"%char
  | "013"%char => true
  | _ => false
  end.

(** [!t.trim()], on the ASCII white space. *)
Definition isBlank (t : string) : bool :=
  forallb isWhiteSpace (list_ascii_of_string t).

(** [x || y] and [x || undefined] on an optional string: the empty string
    is falsy. *)
Definition orElse (x : option string) (y : string) : string :=
  match x with
  | Some t => if String.eqb t "" then y else t
  | None => y
  end.

Definition orUndefined (x : option string) : option string :=
  match x with
  | Some t => if String.eqb t "" then None else Some t
  | None => None
  end.

(** Truthiness of [activePlanDay]: neither [null] nor [0]. *)
Definition truthyDay (x : option Z) : bool :=
  match x with
  | Some k => negb (k =? 0)
  | None => false
  end.

(** [currentDayFocus ? `${topic}: ${currentDayFocus.subTopic}` : topic]. *)
Definition queryTopic (s : State) : string :=
  match currentDayFocus s with
  | Some f => (topic s ++ ": " ++ subTopic f)%string
  | None => topic s
  end.

(** *** Prefetch Queue Manager *)

(** [fetchQuestionsToQueue] up to its [await]. [closureHistory] is the
    [history] the callback closed over ([useCallback] on [history]). *)
Definition fetchQuestionsToQueue (closureHistory : list QuizHistoryItem)
    (currentTopic : string) (currentDiff : float) (count : Z)
    (isInitialLoad : bool) (sourceMaterial : option string) (s : State)
  : State :=
  if prefetchingRef s then s
  else
    let s1 := s |> setPrefetchingRef true in
    let s2 := if isInitialLoad then s1 |> setIsLoadingInitial true
              else s1 |> setIsPrefetching true in
    let previousSubTopics := map question (sliceLast 5 closureHistory) in
    s2 |> setPending
            (pending s2 ++
             [mkFetchCall currentTopic currentDiff previousSubTopics count
                sourceMaterial isInitialLoad]).

(** What the promise awaited by the call [c] settles to when the backend
    answers [r]. *)
Definition awaited (apiKey : string) (c : FetchCall) (r : Gemini.Response)
  : Settled (list Question) :=
  Gemini.generateAdaptiveQuestions apiKey (fcTopic c) (fcDifficulty c)
    (fcPreviousTopics c) (fcCount c) (fcSourceMaterial c) r.

(** The rest of the [try] block, run when the awaited promise fulfils. *)
Definition fetchFulfilled (isInitialLoad : bool) (newQuestions : list Question)
    (s : State) : State :=
  let s1 := s |> setQuestionQueue (questionQueue s ++ newQuestions) in
  match newQuestions with
  | first :: rest =>
      if isInitialLoad then
        s1 |> setCurrentQuestion (Some first) |> setQuestionQueue rest
      else s1
  | [] => s1
  end.

(** The [finally] block. *)
Definition fetchFinally (isInitialLoad : bool) (s : State) : State :=
  (if isInitialLoad then s |> setIsLoadingInitial false
   else s |> setIsPrefetching false)
  |> setPrefetchingRef false.

(** [fetchQuestionsToQueue] from its [await] on: [try] or [catch] (which
    only logs), then [finally]. *)
Definition fetchResume (c : FetchCall) (r : Settled (list Question))
    (s : State) : State :=
  fetchFinally (fcIsInitialLoad c)
    match r with
    | Fulfilled newQuestions => fetchFulfilled (fcIsInitialLoad c) newQuestions s
    | Rejected _ => s
    end.

(** The recovery effect, run after a render that changed [questionQueue]
    or [isLoadingInitial]. *)
Definition recoveryEffect (s : State) : State :=
  match questionQueue s with
  | nextQ :: _ =>
      if isLoadingInitial s then
        s |> setCurrentQuestion (Some nextQ)
          |> setQuestionQueue (tl (questionQueue s))
          |> setIsLoadingInitial false
      else s
  | [] => s
  end.

Inductive LoadingMode : Type := Blocked | Background | Idle.

(** What the quiz view shows: the blocking placeholder while
    [isLoadingInitial], else the "preparing next" badge while
    [isPrefetching]. *)
Definition loadingMode (s : State) : LoadingMode :=
  if isLoadingInitial s then Blocked
  else if isPrefetching s then Background
  else Idle.

(** *** Session State Machine *)

Definition resetApp (s : State) : State :=
  s |> setStatus IDLE |> setTopic "" |> setHistory [] |> setDifficulty 50
    |> setCurrentQuestion None |> setQuestionQueue []
    |> setStudyMaterial None |> setActiveMaterialContext None
    |> setCurrentDayFocus None |> setStudyPlan [] |> setActivePlanDay None.

(** [startQuiz]; the automatic check-in only touches the streak. *)
Definition startQuiz (customTopic sourceMaterial : option string) (s : State)
  : State :=
  let finalTopic := orElse customTopic (topic s) in
  if isBlank finalTopic then s
  else
    s |> setStatus QUIZ |> setHistory [] |> setQuestionQueue []
      |> fetchQuestionsToQueue (history s) finalTopic (difficulty s) 5 true
           sourceMaterial.

Definition handleAnswer (index now : Z) (s : State) : State :=
  if feedbackShown s then s
  else
    let s1 := s |> setSelectedOption (Some index) |> setFeedbackShown true in
    match currentQuestion s with
    | None => s1
    | Some q =>
        let isCorrect := index =? correctIndex q in
        let newDifficulty := calculateNewDifficulty (difficulty s) isCorrect in
        let historyItem :=
          {| question := text q; userAnswerIndex := index;
             hCorrectIndex := correctIndex q; isCorrect := isCorrect;
             timestamp := now; difficultyBefore := difficulty s;
             difficultyAfter := newDifficulty |} in
        let s2 := s1 |> setHistory (history s1 ++ [historyItem])
                     |> setDifficulty newDifficulty in
        if (List.length (questionQueue s) <=? 4)%nat && negb (prefetchingRef s2)
        then
          s2 |> fetchQuestionsToQueue (history s) (queryTopic s) newDifficulty
                  5 false (orUndefined (activeMaterialContext s))
        else s2
    end.

Definition handleNext (s : State) : State :=
  let s1 := s |> setFeedbackShown false |> setSelectedOption None in
  match questionQueue s with
  | nextQ :: _ =>
      s1 |> setCurrentQuestion (Some nextQ)
         |> setQuestionQueue (tl (questionQueue s1))
  | [] =>
      s1 |> setIsLoadingInitial true
         |> fetchQuestionsToQueue (history s) (queryTopic s) (difficulty s) 5
              true (orUndefined (activeMaterialContext s))
  end.

(** The retry button of the quiz view. *)
Definition retryFetch (s : State) : State :=
  s |> fetchQuestionsToQueue (history s) (topic s) (difficulty s) 5 true
         (orUndefined (activeMaterialContext s)).

(** *** Plan Progression Tracker *)

Definition withStatus (st : DayStatus) (d : StudyPlanDay) : StudyPlanDay :=
  {| day := day d; dayTopic := dayTopic d; activities := activities d;
     focus := focus d; dayStatus := Some st |}.

Fixpoint mapi {A B : Type} (f : A -> nat -> B) (i : nat) (l : list A)
  : list B :=
  match l with
  | [] => []
  | a :: l' => f a i :: mapi f (S i) l'
  end.

(** [handleCreatePlan] up to its [await], and from it on. *)
Definition handleCreatePlan (s : State) : State :=
  if isBlank (topic s) then s
  else s |> setIsGeneratingPlan true |> setShowPlanModal true.

Definition planSettled (r : Settled (list StudyPlanDay)) (s : State) : State :=
  match r with
  | Fulfilled rawPlan =>
      s |> setStudyPlan
             (mapi (fun d index =>
                      withStatus (if (index =? 0)%nat then current else locked) d)
                0 rawPlan)
  | Rejected _ => s
  end
  |> setIsGeneratingPlan false.

(** [handleStartPlanDay] up to its [await], and from it on. *)
Definition handleStartPlanDay (d : StudyPlanDay) (s : State) : State :=
  match dayStatus d with
  | Some locked => s
  | _ =>
      s |> setActivePlanDay (Some (day d)) |> setShowPlanModal false
        |> setIsLoadingMaterial true |> setStatus MATERIAL_VIEW
        |> setStudyMaterial None |> setActiveMaterialContext None
        |> setCurrentDayFocus (Some (mkDayFocus (dayTopic d) (focus d)))
  end.

Definition materialSettled (r : Settled StudyMaterialContent) (s : State)
  : State :=
  match r with
  | Fulfilled material =>
      s |> setStudyMaterial (Some material)
        |> setActiveMaterialContext (Some (markdown material))
  | Rejected _ =>
      s |> setStudyMaterial
             (Some (mkStudyMaterialContent
                      "加载学习材料失败。请直接尝试答题。"))
  end
  |> setIsLoadingMaterial false.

(** The [map] callback of [handleCompletePlanDay]. *)
Definition completeDay (activeDay : Z) (d : StudyPlanDay) : StudyPlanDay :=
  if day d =? activeDay then withStatus completed d
  else if day d =? activeDay + 1 then withStatus current d
  else d.

Definition handleCompletePlanDay (s : State) : State :=
  match activePlanDay s with
  | None => resetApp s
  | Some activeDay =>
      s |> setStudyPlan (map (completeDay activeDay) (studyPlan s))
        |> setActivePlanDay None |> setStatus IDLE |> setHistory []
        |> setCurrentQuestion None |> setActiveMaterialContext None
        |> setShowPlanModal true
  end.

(** *** The transition system *)

(** What can happen to the component: a control of the page is used, or an
    awaited promise settles. *)
Inductive Event : Type :=
| ChangeTopic (t : string)          (* the topic input *)
| PressEnter                        (* Enter in the topic input *)
| ClickQuickQuiz                    (* dashboard, quiz card *)
| ClickCreatePlan                   (* dashboard, plan card *)
| ClickClosePlanModal
| ClickStartDay (i : nat)           (* plan modal, button of the i-th day *)
| ClickGiveUpMaterial               (* material view, left button *)
| ClickStartPractice                (* material view, right button *)
| ClickLeaveQuiz                    (* quiz view, button under the statistics *)
| ClickOption (index now : Z)       (* quiz view, an answer option *)
| ClickNext
| ClickCompleteToday                (* quiz view, next to [ClickNext] *)
| ClickRetry
| ClickLogo                         (* header *)
| QuestionsSettled (i : nat) (r : Gemini.Response)
| PlanSettled (r : Settled (list StudyPlanDay))
| MaterialSettled (r : Settled StudyMaterialContent).

(** [l] without its [i]-th element. *)
Definition removeNth {A : Type} (i : nat) (l : list A) : list A :=
  firstn i l ++ skipn (S i) l.

Section WithApiKey.

(** [process.env.API_KEY || ''] *)
Variable apiKey : string.

(** The handler each event runs. *)
Definition handle (e : Event) (s : State) : State :=
  match e with
  | ChangeTopic t => s |> setTopic t
  | PressEnter | ClickQuickQuiz => startQuiz None None s
  | ClickCreatePlan => handleCreatePlan s
  | ClickClosePlanModal => s |> setShowPlanModal false
  | ClickStartDay i =>
      match nth_error (studyPlan s) i with
      | Some d => handleStartPlanDay d s
      | None => s
      end
  | ClickGiveUpMaterial | ClickLogo => resetApp s
  | ClickStartPractice =>
      startQuiz (Some (queryTopic s)) (option_map markdown (studyMaterial s)) s
  | ClickLeaveQuiz =>
      if truthyDay (activePlanDay s) then handleCompletePlanDay s
      else resetApp s
  | ClickOption index now => handleAnswer index now s
  | ClickNext => handleNext s
  | ClickCompleteToday => handleCompletePlanDay s
  | ClickRetry => retryFetch s
  | QuestionsSettled i r =>
      match nth_error (pending s) i with
      | Some c =>
          s |> setPending (removeNth i (pending s))
            |> fetchResume c (awaited apiKey c r)
      | None => s
      end
  | PlanSettled r => planSettled r s
  | MaterialSettled r => materialSettled r s
  end.

(** The renders of the component: the first one; the one that follows
    the effect of a render; the one that follows a handler, which React
    runs once the effects of the last render are flushed. *)
Inductive reachable : State -> Prop :=
| reachable_init : reachable initialState
| reachable_effect s : reachable s -> reachable (recoveryEffect s)
| reachable_event e s :
    reachable s -> recoveryEffect s = s -> reachable (handle e s).

(** One step: the handler, the render, the effect. *)
Definition step (e : Event) (s : State) : State :=
  recoveryEffect (handle e s).

Definition run (es : list Event) (s : State) : State :=
  fold_left (fun s e => step e s) es s.

End WithApiKey.

(** When the page offers the control of an event (the conditions of the
    JSX, the plan modal covering the page while it is open), or when the
    promise it settles is outstanding. *)
Definition onPage (view : AppStatus) (s : State) : bool :=
  negb (showPlanModal s) &&
  match status s, view with
  | IDLE, IDLE | MATERIAL_VIEW, MATERIAL_VIEW | QUIZ, QUIZ => true
  | _, _ => false
  end.

Definition questionShown (s : State) : option Question :=
  if isLoadingInitial s then None else currentQuestion s.

Definition enabled (e : Event) (s : State) : bool :=
  match e with
  | ChangeTopic _ | PressEnter => onPage IDLE s
  | ClickQuickQuiz | ClickCreatePlan =>
      onPage IDLE s && negb (isBlank (topic s))
  | ClickClosePlanModal => showPlanModal s
  | ClickStartDay i =>
      showPlanModal s && negb (isGeneratingPlan s) &&
      match nth_error (studyPlan s) i with
      | Some d =>
          match dayStatus d with
          | Some locked | Some completed => false
          | _ => true
          end
      | None => false
      end
  | ClickGiveUpMaterial | ClickStartPractice =>
      onPage MATERIAL_VIEW s && negb (isLoadingMaterial s)
  | ClickLeaveQuiz => onPage QUIZ s
  | ClickOption index _ =>
      onPage QUIZ s && negb (feedbackShown s) &&
      match questionShown s with
      | Some q => (0 <=? index) && (index <? Z.of_nat (List.length (options q)))
      | None => false
      end
  | ClickNext =>
      onPage QUIZ s && feedbackShown s &&
      match questionShown s with Some _ => true | None => false end
  | ClickCompleteToday =>
      onPage QUIZ s && feedbackShown s &&
      match questionShown s with Some _ => true | None => false end &&
      truthyDay (activePlanDay s) && (3 <=? List.length (history s))%nat
  | ClickRetry =>
      onPage QUIZ s && negb (isLoadingInitial s) &&
      match currentQuestion s with Some _ => false | None => true end
  | ClickLogo => negb (showPlanModal s)
  | QuestionsSettled i _ => (i <? List.length (pending s))%nat
  | PlanSettled _ | MaterialSettled _ => true
  end.

(** A run in which every event is enabled when it happens. *)
Fixpoint feasible (apiKey : string) (es : list Event) (s : State) : bool :=
  match es with
  | [] => true
  | e :: es' => enabled e s && feasible apiKey es' (step apiKey e s)
  end.

(** *** Invariant of the single-flight guard *)

(** The guard is set exactly while a request is outstanding, there is at
    most one, and the prefetch badge only shows for a background request;
    once the effect has run, no blocking wait shows over a non-empty queue. *)
Definition guardInv (s : State) : Prop :=
  (pending s = [] /\ prefetchingRef s = false /\ isPrefetching s = false) \/
  (exists c, pending s = [c] /\ prefetchingRef s = true /\
             (isPrefetching s = true -> fcIsInitialLoad c = false)).

Definition settledInv (s : State) : Prop :=
  isLoadingInitial s = true -> questionQueue s = [].

(** A blocking wait over a non-empty queue is only rendered when no
    background request is left. *)
Definition blockedInv (s : State) : Prop :=
  isLoadingInitial s = true -> questionQueue s <> [] -> isPrefetching s = false.

(** An integer level in [0,100], as a JavaScript number. *)
Definition isLevel (x : float) : Prop :=
  exists level : Z, 0 <= level <= 100 /\ x = JS.Z2F level.

(** The three cells the guard invariant speaks about. *)
Definition sameGuard (s s' : State) : Prop :=
  pending s' = pending s /\ prefetchingRef s' = prefetchingRef s /\
  isPrefetching s' = isPrefetching s.

End App.

(** ** Sample sessions *)

Module Scenario.
Import App.

Definition key : string := "k".

Definition q1 : Question :=
  {| text := "Q1"; options := ["a"; "b"; "c"; "d"]%string; correctIndex := 1;
     explanation := "E1"; topicSubCategory := "T1" |}.

Definition q2 : Question :=
  {| text := "Q2"; options := ["a"; "b"; "c"; "d"]%string; correctIndex := 0;
     explanation := "E2"; topicSubCategory := "T2" |}.

Definition q3 : Question :=
  {| text := "Q3"; options := ["a"; "b"; "c"; "d"]%string; correctIndex := 3;
     explanation := "E3"; topicSubCategory := "T3" |}.

(** A quiz is started and its first batch is being fetched. *)
Definition starting : list Event := [ChangeTopic "Rust"; ClickQuickQuiz].

(** The learner outruns the prefetch: the first batch holds one question,
    the answer starts a background refill, and "next" finds the queue
    empty while that refill is still outstanding. *)
Definition outrun : list Event :=
  starting ++
  [QuestionsSettled 0 (Gemini.TextParsed [q1]); ClickOption 1 1000; ClickNext].

Definition waiting : State := run key outrun initialState.

(** The render right after the refill arrived, before its effect runs. *)
Definition arrived : State :=
  handle key (QuestionsSettled 0 (Gemini.TextParsed [q2; q3])) waiting.

(** The first batch arrived and its first question is shown. *)
Definition answering : State :=
  run key (starting ++ [QuestionsSettled 0 (Gemini.TextParsed [q1; q2; q3])])
    initialState.

(** The blocking request a starting quiz issues. *)
Definition blockingCall : FetchCall :=
  {| fcTopic := "Rust"; fcDifficulty := 50; fcPreviousTopics := [];
     fcCount := 5; fcSourceMaterial := None; fcIsInitialLoad := true |}.

(** A two-day plan as the backend returns it. *)
Definition rawDayOne : StudyPlanDay :=
  {| day := 1; dayTopic := "Ownership"; activities := ["read"; "practice"]%string;
     focus := "moves"; dayStatus := None |}.

Definition rawDayTwo : StudyPlanDay :=
  {| day := 2; dayTopic := "Borrowing"; activities := ["read"; "practice"]%string;
     focus := "references"; dayStatus := None |}.

Definition rawPlan : list StudyPlanDay := [rawDayOne; rawDayTwo].

Definition material : StudyMaterialContent :=
  {| markdown := "## Ownership" |}.

(** The first day of the plan is opened, its quiz is started and shows its
    first question. *)
Definition dayOneQuiz : list Event :=
  [ChangeTopic "Rust"; ClickCreatePlan; PlanSettled (Fulfilled rawPlan);
   ClickStartDay 0; MaterialSettled (Fulfilled material); ClickStartPractice;
   QuestionsSettled 0 (Gemini.TextParsed [q1; q2; q3])].

End Scenario.

(** ** Further invariants of the session *)

Module Invariants.
Import App.

(** A record of the answer log as [handleAnswer] writes it. *)
Definition recordOk (h : QuizHistoryItem) : Prop :=
  isLevel (difficultyBefore h) /\
  isCorrect h = (userAnswerIndex h =? hCorrectIndex h) /\
  difficultyAfter h
  = Difficulty.calculateNewDifficulty (difficultyBefore h) (isCorrect h).

(** The log is made of such records, each starts at the level the one
    before it ended at, and the last one ends at the current level. *)
Definition historyInv (s : State) : Prop :=
  Forall recordOk (history s) /\
  (forall l a, history s = l ++ [a] -> difficultyAfter a = difficulty s) /\
  (forall l1 a b l2,
      history s = l1 ++ a :: b :: l2 -> difficultyBefore b = difficultyAfter a).

(** A request as the component issues them: for 5 questions, at an
    integer level, with the texts of at most 5 earlier questions. *)
Definition callOk (c : FetchCall) : Prop :=
  fcCount c = 5 /\ isLevel (fcDifficulty c) /\
  (List.length (fcPreviousTopics c) <= 5)%nat.

(** The "preparing next" badge is on while a background request is
    outstanding. *)
Definition badgeInv (s : State) : Prop :=
  forall c, pending s = [c] -> fcIsInitialLoad c = false ->
            isPrefetching s = true.

(** What a handler does to the log and the level: nothing, or it empties
    the log, or it appends the record of one answer. *)
Inductive logStep (s s' : State) : Prop :=
| log_kept : history s' = history s -> difficulty s' = difficulty s ->
             logStep s s'
| log_cleared : history s' = [] -> difficulty s' = difficulty s ->
                logStep s s'
| log_reset : history s' = [] -> difficulty s' = 50%float -> logStep s s'
| log_answer item :
    history s' = history s ++ [item] ->
    difficulty s' = difficultyAfter item ->
    difficultyBefore item = difficulty s ->
    isCorrect item = (userAnswerIndex item =? hCorrectIndex item) ->
    difficultyAfter item
    = Difficulty.calculateNewDifficulty (difficulty s) (isCorrect item) ->
    logStep s s'.

End Invariants.

(** ** The proficiency chart (the [ProficiencyChart] component) *)

Module Chart.
Import App.

Record Point : Type := mkPoint {
  name : string;
  level : float;
  pointIsCorrect : option bool
}.

(** [`Q${i + 1}`] *)
Definition questionName (i : nat) : string :=
  ("Q" ++ NilZero.string_of_uint (Nat.to_uint (i + 1)))%string.

(** The [data] array the chart plots. *)
Definition data (history : list QuizHistoryItem) (currentDifficulty : float)
  : list Point :=
  let data :=
    mkPoint "初始" 50 None ::
    mapi (fun h i =>
            mkPoint (questionName i) (difficultyAfter h) (Some (isCorrect h)))
      0 history in
  match nth_error history (List.length history - 1) with
  | Some lastItem =>
      if (0 <? List.length history)%nat &&
         negb (PrimFloat.eqb (difficultyAfter lastItem) currentDifficulty)
      then data ++ [mkPoint "当前" currentDifficulty (Some true)]
      else data
  | None => data
  end.

End Chart.

(** ** More sample sessions *)

Module Samples.
Import App.

(** The first question of [Scenario.answering] is answered correctly, the
    second one wrongly. *)
Definition answeredOnce : State :=
  step Scenario.key (ClickOption 1 1000) Scenario.answering.

Definition answeredTwice : State :=
  run Scenario.key [ClickNext; ClickOption 3 2000] answeredOnce.

(** A plan has arrived and the plan modal shows it. *)
Definition planReady : State :=
  run Scenario.key
    [ChangeTopic "Rust"; ClickCreatePlan; PlanSettled (Fulfilled Scenario.rawPlan)]
    initialState.

(** The background refill [Scenario.waiting] waits for. *)
Definition refillCall : FetchCall :=
  {| fcTopic := "Rust"; fcDifficulty := 55; fcPreviousTopics := [];
     fcCount := 5; fcSourceMaterial := None; fcIsInitialLoad := false |}.

End Samples.

(** ** The plan as a ladder *)

Module Ladder.
Import App.

(** The status of the day at position [i] (from 0) of a plan whose first
    [done] days are completed. *)
Definition rung (done i : nat) : DayStatus :=
  if (i <? done)%nat then completed
  else if (i =? done)%nat then current
  else locked.

(** A plan numbered 1, 2, ... whose first [done] days are completed, the
    next one current and the others locked. *)
Definition isLadder (done : nat) (plan : list StudyPlanDay) : Prop :=
  forall i d,
    nth_error plan i = Some d ->
    day d = Z.of_nat i + 1 /\ dayStatus d = Some (rung done i).

End Ladder.

(** ** The other services of [services/geminiService.ts] *)

Module Services.

(** What the backend does with a [generateContent] call that asks for
    JSON. *)
Inductive Reply (A : Type) : Type :=
| CallThrows
| NoText
| Unparsable
| Parsed (a : A).
Arguments CallThrows {A}.
Arguments NoText {A}.
Arguments Unparsable {A}.
Arguments Parsed {A} a.

(** [generateStudyPlan]: a failure inside the [try] gives the empty plan. *)
Definition generateStudyPlan (apiKey topic : string) (currentDifficulty : float)
    (r : Reply (list StudyPlanDay)) : Settled (list StudyPlanDay) :=
  if String.eqb apiKey "" then Rejected "API Key is missing."
  else
    match r with
    | Parsed days => Fulfilled days
    | _ => Fulfilled []
    end.

(** [Math.max(level, 60)], the level the material is written for. *)
Definition effectiveLevel (level : float) : float := JS.Math_max level 60.

(** [generateStudyMaterial]: a failure inside the [try] gives a
    placeholder text. *)
Definition generateStudyMaterial (apiKey mainTopic subTopic focus : string)
    (level : float) (r : Reply StudyMaterialContent)
  : Settled StudyMaterialContent :=
  if String.eqb apiKey "" then Rejected "API Key is missing."
  else
    match r with
    | Parsed material => Fulfilled material
    | _ =>
        Fulfilled
          (mkStudyMaterialContent
             "生成深度学习材料时出错，请直接开始测验。")
    end.

(** What the backend does with a [generateContent] call that asks for
    plain text: it throws, or answers with a text that may be missing. *)
Inductive TextReply : Type :=
| TextThrows
| TextOf (responseText : option string).

(** [explainConcept] *)
Definition explainConcept (apiKey selectedText contextTopic : string)
    (r : TextReply) : Settled string :=
  if String.eqb apiKey "" then Rejected "API Key is missing."
  else
    match r with
    | TextOf responseText =>
        Fulfilled (App.orElse responseText "无法解释该内容。")
    | TextThrows => Fulfilled "AI 连接失败，无法解释。"%string
    end.

End Services.

(** ** The explanation card ([handleExplain] of [App.tsx]) *)

Module Explain.

Record SelectionPopup : Type := mkSelectionPopup {
  x : float;
  y : float;
  popupText : string
}.

Record ExplanationData : Type := mkExplanationData {
  explainedText : string;
  content : option string;
  loading : bool
}.

(** The two [useState] cells of the card. *)
Record Card : Type := mkCard {
  selectionPopup : option SelectionPopup;
  explanationData : option ExplanationData
}.

(** [currentDayFocus ? currentDayFocus.subTopic : topic] *)
Definition context (s : App.State) : string :=
  match App.currentDayFocus s with
  | Some f => App.subTopic f
  | None => App.topic s
  end.

(** [handleExplain] up to its [await]. *)
Definition handleExplain (c : Card) : Card :=
  match selectionPopup c with
  | None => c
  | Some popup =>
      {| selectionPopup := None;
         explanationData :=
           Some (mkExplanationData (popupText popup) None true) |}
  end.

(** [handleExplain] from its [await] on, for the text it closed over. *)
Definition explainSettled (textToExplain : string) (r : Settled string)
    (c : Card) : Card :=
  {| selectionPopup := selectionPopup c;
     explanationData :=
       Some (mkExplanationData textToExplain
               (Some match r with
                     | Fulfilled explanation => explanation
                     | Rejected _ => "解释失败，请重试。"%string
                     end)
               false) |}.

End Explain.

(** ** The daily streak ([App.tsx], first effect and [handleCheckIn]) *)

Module Streak.

(** The two keys of [localStorage] the component uses; [None] is an
    absent key. *)
Record Storage : Type := mkStorage {
  lastCheckInDate : option string;
  streakCount : option string
}.

(** The two [useState] cells; a streak of [None] is [NaN]. Integers are
    exact up to 2^53. *)
Record Cells : Type := mkCells {
  streak : option Z;
  isCheckedIn : bool
}.

Definition initialCells : Cells := {| streak := Some 0; isCheckedIn := false |}.

Fixpoint skipWhiteSpace (s : string) : string :=
  match s with
  | String c s' => if App.isWhiteSpace c then skipWhiteSpace s' else s
  | EmptyString => EmptyString
  end.

Definition digitOf (c : ascii) : option Z :=
  let n := nat_of_ascii c in
  if (48 <=? n)%nat && (n <=? 57)%nat then Some (Z.of_nat (n - 48)) else None.

(** The value of the longest prefix of decimal digits, [None] when there
    is no digit. *)
Fixpoint digitsValue (s : string) (acc : option Z) : option Z :=
  match s with
  | String c s' =>
      match digitOf c with
      | Some d =>
          digitsValue s'
            (Some (10 * match acc with Some a => a | None => 0 end + d))
      | None => acc
      end
  | EmptyString => acc
  end.

(** [parseInt(s, 10)]: white space, an optional sign, digits; the rest is
    ignored. *)
Definition parseInt (s : string) : option Z :=
  match skipWhiteSpace s with
  | String "-"%char s' => option_map Z.opp (digitsValue s' None)
  | String "+"%char s' => digitsValue s' None
  | s' => digitsValue s' None
  end.

(** [n.toString()] on an integer below 10^21, or on [NaN]. *)
Definition toString (n : option Z) : string :=
  match n with
  | Some z => NilZero.string_of_int (Z.to_int z)
  | None => "NaN"%string
  end.

(** [lastCheckIn === date] *)
Definition isDate (lastCheckIn : option string) (date : string) : bool :=
  match lastCheckIn with
  | Some d => String.eqb d date
  | None => false
  end.

(** The effect that runs once at start: [today] and [yesterday] are the
    [toDateString()] of the clock's day and of the day before it. *)
Definition initStreak (today yesterday : string) (store : Storage) : Cells :=
  let lastCheckIn := lastCheckInDate store in
  let storedStreak := parseInt (App.orElse (streakCount store) "0") in
  if isDate lastCheckIn today then
    {| streak := storedStreak; isCheckedIn := true |}
  else if isDate lastCheckIn yesterday then
    {| streak := storedStreak; isCheckedIn := false |}
  else {| streak := Some 0; isCheckedIn := false |}.

Definition handleCheckIn (today : string) (cs : Cells * Storage)
  : Cells * Storage :=
  let (cells, store) := cs in
  if isCheckedIn cells then cs
  else
    let newStreak := option_map (fun n => n + 1) (streak cells) in
    ({| streak := newStreak; isCheckedIn := true |},
     {| lastCheckInDate := Some today;
        streakCount := Some (toString newStreak) |}).

End Streak.

(** ** The earlier revision of the component ([src/unnamed/part_000],
    with the service of [src/unnamed/part_001])

    It has no plan, no material and no header control; its state is the
    quiz part of [App.State], and its handlers leave the other cells
    alone. *)

Module Legacy.
Import App.

(** [generateAdaptiveQuestions] of the earlier service: no source
    material. *)
Definition generateAdaptiveQuestions (apiKey : string) (topic : string)
    (currentDifficulty : float) (previousTopics : list string) (count : Z)
    (r : Gemini.Response) : Settled (list Question) :=
  if String.eqb apiKey "" then Rejected "API Key is missing."
  else
    match Gemini.tryGenerate r with
    | inr questionsData => Fulfilled questionsData
    | inl _ => Fulfilled [Gemini.fallbackQuestion]
    end.

(** [fetchQuestionsToQueue] up to its [await]. *)
Definition fetchQuestionsToQueue (closureHistory : list QuizHistoryItem)
    (currentTopic : string) (currentDiff : float) (count : Z)
    (isInitialLoad : bool) (s : State) : State :=
  if prefetchingRef s then s
  else
    let s1 := s |> setPrefetchingRef true in
    let s2 := if isInitialLoad then s1 |> setIsLoadingInitial true
              else s1 |> setIsPrefetching true in
    let previousSubTopics := map question (sliceLast 5 closureHistory) in
    s2 |> setPending
            (pending s2 ++
             [mkFetchCall currentTopic currentDiff previousSubTopics count
                None isInitialLoad]).

(** [fetchQuestionsToQueue] from its [await] on. *)
Definition fetchResume (c : FetchCall) (r : Settled (list Question))
    (s : State) : State :=
  let isInitialLoad := fcIsInitialLoad c in
  let s1 :=
    match r with
    | Fulfilled newQuestions =>
        let s1 := s |> setQuestionQueue (questionQueue s ++ newQuestions) in
        match newQuestions with
        | first :: rest =>
            if isInitialLoad then
              s1 |> setCurrentQuestion (Some first) |> setQuestionQueue rest
            else s1
        | [] => s1
        end
    | Rejected _ => s
    end in
  (if isInitialLoad then s1 |> setIsLoadingInitial false
   else s1 |> setIsPrefetching false)
  |> setPrefetchingRef false.

(** The safety effect. *)
Definition recoveryEffect (s : State) : State :=
  match questionQueue s with
  | nextQ :: _ =>
      if isLoadingInitial s then
        s |> setCurrentQuestion (Some nextQ)
          |> setQuestionQueue (tl (questionQueue s))
          |> setIsLoadingInitial false
      else s
  | [] => s
  end.

Definition startQuiz (s : State) : State :=
  if isBlank (topic s) then s
  else
    s |> setStatus QUIZ |> setHistory [] |> setDifficulty 50
      |> setQuestionQueue []
      |> fetchQuestionsToQueue (history s) (topic s) 50 5 true.

Definition handleAnswer (index now : Z) (s : State) : State :=
  if feedbackShown s then s
  else
    let s1 := s |> setSelectedOption (Some index) |> setFeedbackShown true in
    match currentQuestion s with
    | None => s1
    | Some q =>
        let isCorrect := index =? correctIndex q in
        let newDifficulty :=
          Difficulty.calculateNewDifficulty (difficulty s) isCorrect in
        let historyItem :=
          {| question := text q; userAnswerIndex := index;
             hCorrectIndex := correctIndex q; isCorrect := isCorrect;
             timestamp := now; difficultyBefore := difficulty s;
             difficultyAfter := newDifficulty |} in
        let s2 := s1 |> setHistory (history s1 ++ [historyItem])
                     |> setDifficulty newDifficulty in
        if (List.length (questionQueue s) <=? 4)%nat && negb (prefetchingRef s2)
        then
          s2 |> fetchQuestionsToQueue (history s) (topic s) newDifficulty 5
                  false
        else s2
    end.

Definition handleNext (s : State) : State :=
  let s1 := s |> setFeedbackShown false |> setSelectedOption None in
  match questionQueue s with
  | nextQ :: _ =>
      s1 |> setCurrentQuestion (Some nextQ)
         |> setQuestionQueue (tl (questionQueue s1))
  | [] =>
      s1 |> setIsLoadingInitial true
         |> fetchQuestionsToQueue (history s) (topic s) (difficulty s) 5 true
  end.

Definition resetApp (s : State) : State :=
  s |> setStatus IDLE |> setTopic "" |> setHistory [] |> setDifficulty 50
    |> setCurrentQuestion None |> setQuestionQueue [].


(** The handler each shared event runs in the earlier revision. *)
Definition handle (apiKey : string) (e : Event) (s : State) : State :=
  match e with
  | ChangeTopic t => s |> setTopic t
  | PressEnter | ClickQuickQuiz => startQuiz s
  | ClickLeaveQuiz => resetApp s
  | ClickOption index now => handleAnswer index now s
  | ClickNext => handleNext s
  | ClickRetry =>
      s |> fetchQuestionsToQueue (history s) (topic s) (difficulty s) 5 true
  | QuestionsSettled i r =>
      match nth_error (pending s) i with
      | Some c =>
          s |> setPending (removeNth i (pending s))
            |> fetchResume c
                 (generateAdaptiveQuestions apiKey (fcTopic c) (fcDifficulty c)
                    (fcPreviousTopics c) (fcCount c) r)
      | None => s
      end
  | _ => s
  end.

Definition step (apiKey : string) (e : Event) (s : State) : State :=
  recoveryEffect (handle apiKey e s).

Definition run (apiKey : string) (es : list Event) (s : State) : State :=
  fold_left (fun s e => step apiKey e s) es s.


End Legacy.

(** * Properties *)

(** ** JavaScript numbers *)

Example Math_round_samples :
  JS.Math_round 5.5 = 6%float /\ JS.Math_round 5.25 = 5%float /\
  JS.Math_round 2.5 = 3%float /\ JS.Math_round (-2.5) = (-2)%float /\
  JS.Math_round (-0.25) = (-0)%float /\
  JS.Math_round 0x1.fffffffffffffp-2 = 0%float /\
  JS.Math_round 4503599627370497 = 4503599627370497%float /\
  JS.Math_round PrimFloat.infinity = PrimFloat.infinity.
Proof. repeat split; vm_compute; reflexivity. Qed.

Example Math_max_min_samples :
  JS.Math_max 2 5.5 = 5.5%float /\ JS.Math_max 3 0.5 = 3%float /\
  JS.Math_max 0 (-0) = 0%float /\ JS.Math_min 100 101 = 100%float /\
  JS.Math_min 0 (-0) = (-0)%float.
Proof. repeat split; vm_compute; reflexivity. Qed.

(** ** Difficulty Controller *)

Module DifficultyFacts.
Import JS Difficulty.

(** The levels are the integers 0..100: a property checked on each of them
    holds on the whole range. *)
Lemma levels_enum (P : Z -> Prop) :
  (forall n : nat, (n <= 100)%nat -> P (Z.of_nat n)) ->
  forall level : Z, 0 <= level <= 100 -> P level.
Proof.
  intros H level Hr.
  rewrite <- (Z2Nat.id level) by lia.
  apply H. lia.
Qed.

Ltac check_levels tac :=
  let n := fresh "n" in
  let H := fresh "H" in
  apply levels_enum; intros n H;
  do 101 (destruct n as [|n]; [ clear H; tac | ]);
  exfalso; lia.

(** Neither the boost nor the penalty is ever half-way between two
    integers, so every round-to-nearest convention gives the same level. *)
Lemma rounding_never_ties (level : Z) :
  0 <= level <= 100 ->
  is_tie (10 * (1 - inject_Z level / 110))%Q = false /\
  is_tie (8 * inject_Z level / 100)%Q = false.
Proof.
  revert level. check_levels ltac:(vm_compute; split; reflexivity).
Qed.

(** On the levels, the floating-point code and the exact formula agree. *)
Lemma calculateNewDifficulty_refines (level : Z) (correct : bool) :
  0 <= level <= 100 ->
  calculateNewDifficulty (Z2F level) correct = Z2F (nextLevel_spec level correct).
Proof.
  revert level.
  check_levels ltac:(destruct correct; vm_compute; reflexivity).
Qed.

Lemma nextLevel_spec_up (level : Z) :
  0 <= level <= 100 ->
  0 <= nextLevel_spec level true <= 100 /\
  (level < 100 -> level < nextLevel_spec level true) /\
  (level = 100 -> nextLevel_spec level true = 100).
Proof.
  unfold nextLevel_spec, boost_spec.
  generalize (round_nearest (10 * (1 - inject_Z level / 110))%Q). lia.
Qed.

Lemma nextLevel_spec_down (level : Z) :
  0 <= level <= 100 ->
  0 <= nextLevel_spec level false <= 100 /\
  (0 < level -> nextLevel_spec level false < level) /\
  (level = 0 -> nextLevel_spec level false = 0).
Proof.
  unfold nextLevel_spec, penalty_spec.
  generalize (round_nearest (8 * inject_Z level / 100)%Q). lia.
Qed.

(** C3. For every integer level in [0,100] the code computes the formula of
    the specification: a correct answer gives
    min(100, current + max(2, round(10 * (1 - current/110)))), a wrong one
    max(0, current - max(3, round(8 * current/100))); from 50 a correct
    answer leads to 55, and from 55 a wrong one to 51. *)
Theorem C3_difficulty_update_formula (level : Z) :
  0 <= level <= 100 ->
  calculateNewDifficulty (Z2F level) true
  = Z2F (Z.min 100
           (level + Z.max 2 (round_nearest
                               (10 * (1 - inject_Z level / 110))%Q))) /\
  calculateNewDifficulty (Z2F level) false
  = Z2F (Z.max 0
           (level - Z.max 3 (round_nearest (8 * inject_Z level / 100)%Q))) /\
  calculateNewDifficulty (Z2F 50) true = Z2F 55 /\
  calculateNewDifficulty (Z2F 55) false = Z2F 51.
Proof.
  intros Hlevel.
  split; [exact (calculateNewDifficulty_refines level true Hlevel)|].
  split; [exact (calculateNewDifficulty_refines level false Hlevel)|].
  split; vm_compute; reflexivity.
Qed.

Lemma C3_difficulty_update_formula_witness :
  0 <= 72 <= 100 /\
  calculateNewDifficulty (Z2F 72) true = Z2F 75 /\
  calculateNewDifficulty (Z2F 72) false = Z2F 66.
Proof.
  split; [lia|].
  destruct (C3_difficulty_update_formula 72) as (Hup & Hdown & _); [lia|].
  split; [exact Hup | exact Hdown].
Defined.

(** C7. From every level in [0,100] both outcomes lead to an integer level
    in [0,100]; a correct answer strictly raises a level below 100 and
    keeps 100, a wrong answer strictly lowers a level above 0 and keeps 0. *)
Theorem C7_bounded_monotone_step (level : Z) :
  0 <= level <= 100 ->
  exists up down : Z,
    calculateNewDifficulty (Z2F level) true = Z2F up /\
    calculateNewDifficulty (Z2F level) false = Z2F down /\
    0 <= up <= 100 /\ 0 <= down <= 100 /\
    (level < 100 -> level < up) /\ (level = 100 -> up = 100) /\
    (0 < level -> down < level) /\ (level = 0 -> down = 0).
Proof.
  intros Hlevel.
  exists (nextLevel_spec level true), (nextLevel_spec level false).
  pose proof (nextLevel_spec_up level Hlevel) as (Hu & Hu1 & Hu2).
  pose proof (nextLevel_spec_down level Hlevel) as (Hd & Hd1 & Hd2).
  repeat split;
    auto using calculateNewDifficulty_refines; try apply Hu; try apply Hd.
Qed.

Lemma C7_bounded_monotone_step_witness :
  0 <= 97 <= 100 /\
  exists up down : Z,
    calculateNewDifficulty (Z2F 97) true = Z2F up /\
    calculateNewDifficulty (Z2F 97) false = Z2F down /\
    0 <= up <= 100 /\ 0 <= down <= 100 /\
    (97 < 100 -> 97 < up) /\ (97 = 100 -> up = 100) /\
    (0 < 97 -> down < 97) /\ (97 = 0 -> down = 0).
Proof.
  split; [lia|]. apply (C7_bounded_monotone_step 97). lia.
Defined.

End DifficultyFacts.

(** ** Prefetch Queue Manager and Session State Machine *)

Module AppFacts.
Import App.

Lemma sameGuard_refl s : sameGuard s s.
Proof. repeat split. Qed.

Lemma sameGuard_trans s1 s2 s3 :
  sameGuard s1 s2 -> sameGuard s2 s3 -> sameGuard s1 s3.
Proof. unfold sameGuard. intuition congruence. Qed.

Lemma guardInv_same s s' : sameGuard s s' -> guardInv s -> guardInv s'.
Proof.
  intros (Hp & Hr & Hb) [(H1 & H2 & H3) | (c & H1 & H2 & H3)].
  - left. repeat split; congruence.
  - right. exists c. repeat split; try congruence.
    intros H. apply H3. congruence.
Qed.

(** *** [fetchQuestionsToQueue] *)

Lemma fetch_noop h t d n i m s :
  prefetchingRef s = true -> fetchQuestionsToQueue h t d n i m s = s.
Proof. intros H. unfold fetchQuestionsToQueue. rewrite H. reflexivity. Qed.

Lemma fetch_sets_guard h t d n i m s :
  prefetchingRef (fetchQuestionsToQueue h t d n i m s) = true.
Proof.
  unfold fetchQuestionsToQueue.
  destruct (prefetchingRef s) eqn:E; [exact E|].
  destruct i; reflexivity.
Qed.

Lemma fetch_absorbs h t d n i m h' t' d' n' i' m' s :
  fetchQuestionsToQueue h' t' d' n' i' m' (fetchQuestionsToQueue h t d n i m s)
  = fetchQuestionsToQueue h t d n i m s.
Proof. apply fetch_noop, fetch_sets_guard. Qed.

Lemma fetch_starts h t d n i m s :
  prefetchingRef s = false ->
  pending (fetchQuestionsToQueue h t d n i m s)
  = pending s ++ [mkFetchCall t d (map question (sliceLast 5 h)) n m i].
Proof.
  intros H. unfold fetchQuestionsToQueue. rewrite H.
  destruct i; reflexivity.
Qed.

Lemma fetch_questionQueue h t d n i m s :
  questionQueue (fetchQuestionsToQueue h t d n i m s) = questionQueue s.
Proof.
  unfold fetchQuestionsToQueue.
  destruct (prefetchingRef s); [reflexivity|]. destruct i; reflexivity.
Qed.

Lemma fetch_currentQuestion h t d n i m s :
  currentQuestion (fetchQuestionsToQueue h t d n i m s) = currentQuestion s.
Proof.
  unfold fetchQuestionsToQueue.
  destruct (prefetchingRef s); [reflexivity|]. destruct i; reflexivity.
Qed.

Lemma fetch_background_blocked h t d n m s :
  isLoadingInitial (fetchQuestionsToQueue h t d n false m s)
  = isLoadingInitial s.
Proof.
  unfold fetchQuestionsToQueue. destruct (prefetchingRef s); reflexivity.
Qed.

Lemma fetch_initial_prefetching h t d n m s :
  isPrefetching (fetchQuestionsToQueue h t d n true m s) = isPrefetching s.
Proof.
  unfold fetchQuestionsToQueue. destruct (prefetchingRef s); reflexivity.
Qed.

Lemma guardInv_fetch h t d n i m s :
  guardInv s -> guardInv (fetchQuestionsToQueue h t d n i m s).
Proof.
  intros Hinv. destruct (prefetchingRef s) eqn:E.
  - rewrite fetch_noop by exact E. exact Hinv.
  - destruct Hinv as [(H1 & H2 & H3) | (c & H1 & H2 & H3)]; [|congruence].
    right. eexists. rewrite fetch_starts, H1 by exact E.
    split; [reflexivity|]. split; [apply fetch_sets_guard|].
    destruct i; [|reflexivity].
    rewrite fetch_initial_prefetching. congruence.
Qed.

(** *** The handlers keep the guard invariant *)

Ltac same_guard := repeat split; reflexivity.

Lemma sameGuard_resetApp s : sameGuard s (resetApp s).
Proof. same_guard. Qed.

Lemma sameGuard_recoveryEffect s : sameGuard s (recoveryEffect s).
Proof.
  unfold recoveryEffect.
  destruct (questionQueue s); [same_guard|].
  destruct (isLoadingInitial s); same_guard.
Qed.

Lemma sameGuard_handleCompletePlanDay s :
  sameGuard s (handleCompletePlanDay s).
Proof. unfold handleCompletePlanDay. destruct (activePlanDay s); same_guard. Qed.

Lemma sameGuard_handleStartPlanDay d s : sameGuard s (handleStartPlanDay d s).
Proof.
  unfold handleStartPlanDay.
  destruct (dayStatus d) as [[]|]; same_guard.
Qed.

Lemma guardInv_startQuiz c m s : guardInv s -> guardInv (startQuiz c m s).
Proof.
  intros H. unfold startQuiz.
  destruct (isBlank _); [exact H|].
  apply guardInv_fetch. revert H. apply guardInv_same. same_guard.
Qed.

Lemma guardInv_handleAnswer i now s :
  guardInv s -> guardInv (handleAnswer i now s).
Proof.
  intros H. unfold handleAnswer.
  destruct (feedbackShown s); [exact H|].
  destruct (currentQuestion s) as [q|].
  - match goal with |- guardInv (if ?b then _ else _) => destruct b end;
      [apply guardInv_fetch|]; revert H; apply guardInv_same; same_guard.
  - revert H. apply guardInv_same. same_guard.
Qed.

Lemma guardInv_handleNext s : guardInv s -> guardInv (handleNext s).
Proof.
  intros H. unfold handleNext.
  destruct (questionQueue s); [apply guardInv_fetch|];
    revert H; apply guardInv_same; same_guard.
Qed.

Lemma guardInv_settle c r s :
  guardInv s -> nth_error (pending s) 0 = Some c ->
  guardInv (fetchResume c r (setPending (removeNth 0 (pending s)) s)).
Proof.
  intros [(H1 & _) | (c' & H1 & H2 & H3)] Hc; rewrite H1 in Hc;
    [discriminate|].
  injection Hc as ->. left.
  unfold fetchResume, fetchFinally, fetchFulfilled. rewrite H1.
  destruct (fcIsInitialLoad c) eqn:Hi.
  - assert (isPrefetching s = false) as Hb
        by (destruct (isPrefetching s); [specialize (H3 eq_refl)|]; congruence).
    destruct r as [[|q qs]|]; repeat split; exact Hb.
  - destruct r as [[|q qs]|]; repeat split.
Qed.

Section WithApiKey.

Variable apiKey : string.

Lemma pending_index i c s :
  guardInv s -> nth_error (pending s) i = Some c -> i = 0%nat.
Proof.
  intros [(H1 & _) | (c' & H1 & _)] Hc; rewrite H1 in Hc.
  - destruct i; discriminate.
  - destruct i as [|[|i]]; [reflexivity | discriminate | discriminate].
Qed.

Lemma guardInv_handle e s : guardInv s -> guardInv (handle apiKey e s).
Proof.
  intros H. destruct e; cbn [handle];
    try (revert H; apply guardInv_same; same_guard);
    auto using guardInv_startQuiz, guardInv_handleAnswer, guardInv_handleNext.
  - (* ClickCreatePlan *)
    unfold handleCreatePlan. destruct (isBlank _); [exact H|].
    revert H. apply guardInv_same. same_guard.
  - (* ClickStartDay *)
    destruct (nth_error (studyPlan s) i); [|exact H].
    revert H. apply guardInv_same, sameGuard_handleStartPlanDay.
  - (* ClickLeaveQuiz *)
    revert H. apply guardInv_same.
    destruct (truthyDay _);
      [apply sameGuard_handleCompletePlanDay | apply sameGuard_resetApp].
  - (* ClickCompleteToday *)
    revert H. apply guardInv_same, sameGuard_handleCompletePlanDay.
  - (* ClickRetry *)
    apply guardInv_fetch, H.
  - (* QuestionsSettled *)
    destruct (nth_error (pending s) i) eqn:Hc; [|exact H].
    pose proof (pending_index _ _ _ H Hc) as ->.
    apply guardInv_settle; assumption.
  - (* PlanSettled *)
    revert H. apply guardInv_same. destruct r; same_guard.
  - (* MaterialSettled *)
    revert H. apply guardInv_same. destruct r; same_guard.
Qed.

Lemma settledInv_recoveryEffect s : settledInv (recoveryEffect s).
Proof.
  unfold settledInv, recoveryEffect.
  destruct (questionQueue s) eqn:Hq; [intros _; exact Hq|].
  destruct (isLoadingInitial s) eqn:Hl; cbn; congruence.
Qed.

Lemma recoveryEffect_stable s : recoveryEffect s = s -> settledInv s.
Proof. intros <-. apply settledInv_recoveryEffect. Qed.

Lemma settled_recoveryEffect s : settledInv s -> recoveryEffect s = s.
Proof.
  unfold settledInv, recoveryEffect. intros H.
  destruct (questionQueue s); [reflexivity|].
  destruct (isLoadingInitial s); [|reflexivity].
  discriminate (H eq_refl).
Qed.

Lemma recoveryEffect_idem s :
  recoveryEffect (recoveryEffect s) = recoveryEffect s.
Proof. apply settled_recoveryEffect, settledInv_recoveryEffect. Qed.

Lemma blockedInv_settled s : settledInv s -> blockedInv s.
Proof. unfold settledInv, blockedInv. intros H Hl Hq. tauto. Qed.

(** A handler that neither fills the queue nor starts a blocking wait
    cannot render a blocking wait over a non-empty queue. *)
Lemma blockedInv_sameWait s s' :
  settledInv s ->
  questionQueue s' = [] \/
  (questionQueue s' = questionQueue s /\
   isLoadingInitial s' = isLoadingInitial s) ->
  blockedInv s'.
Proof.
  unfold settledInv, blockedInv.
  intros H [Hq | (Hq & Hl)] Hl' Hq'; [congruence|].
  rewrite Hq in Hq'. rewrite Hl in Hl'. tauto.
Qed.

Ltac same_wait := right; split; reflexivity.

Lemma blockedInv_fetch_initial h t d n m s :
  guardInv s -> settledInv s ->
  blockedInv (fetchQuestionsToQueue h t d n true m s).
Proof.
  intros Hg Hs. destruct (prefetchingRef s) eqn:E.
  - rewrite fetch_noop by exact E. apply blockedInv_settled, Hs.
  - intros _ _. rewrite fetch_initial_prefetching.
    destruct Hg as [(_ & _ & H) | (c & _ & H & _)]; congruence.
Qed.

Lemma blockedInv_handle e s :
  guardInv s -> settledInv s -> blockedInv (handle apiKey e s).
Proof.
  intros Hg Hs. destruct e; cbn [handle];
    try (apply (blockedInv_sameWait s); [exact Hs | same_wait]).
  - (* PressEnter *)
    unfold startQuiz. destruct (isBlank _); [apply blockedInv_settled, Hs|].
    apply (blockedInv_sameWait s); [exact Hs|].
    left. rewrite fetch_questionQueue. reflexivity.
  - (* ClickQuickQuiz *)
    unfold startQuiz. destruct (isBlank _); [apply blockedInv_settled, Hs|].
    apply (blockedInv_sameWait s); [exact Hs|].
    left. rewrite fetch_questionQueue. reflexivity.
  - (* ClickCreatePlan *)
    unfold handleCreatePlan. destruct (isBlank _);
      [apply blockedInv_settled, Hs|].
    apply (blockedInv_sameWait s); [exact Hs | same_wait].
  - (* ClickStartDay *)
    destruct (nth_error (studyPlan s) i); [|apply blockedInv_settled, Hs].
    unfold handleStartPlanDay.
    destruct (dayStatus s0) as [[]|];
      apply (blockedInv_sameWait s); try exact Hs; same_wait.
  - (* ClickGiveUpMaterial *)
    apply (blockedInv_sameWait s); [exact Hs | left; reflexivity].
  - (* ClickStartPractice *)
    unfold startQuiz. destruct (isBlank _); [apply blockedInv_settled, Hs|].
    apply (blockedInv_sameWait s); [exact Hs|].
    left. rewrite fetch_questionQueue. reflexivity.
  - (* ClickLeaveQuiz *)
    apply (blockedInv_sameWait s); [exact Hs|].
    destruct (truthyDay _); [|left; reflexivity].
    unfold handleCompletePlanDay.
    destruct (activePlanDay s); [same_wait | left; reflexivity].
  - (* ClickOption *)
    apply (blockedInv_sameWait s); [exact Hs|]. right.
    unfold handleAnswer.
    destruct (feedbackShown s); [split; reflexivity|].
    destruct (currentQuestion s) as [q|]; [|split; reflexivity].
    match goal with |- context [if ?b then _ else _] => destruct b end;
      [|split; reflexivity].
    split; [rewrite fetch_questionQueue | rewrite fetch_background_blocked];
      reflexivity.
  - (* ClickNext *)
    unfold handleNext. destruct (questionQueue s) eqn:Hq.
    + apply (blockedInv_sameWait s); [exact Hs|]. left.
      rewrite fetch_questionQueue. exact Hq.
    + intros Hl _. cbn in Hl. unfold settledInv in Hs.
      rewrite Hq in Hs. specialize (Hs Hl). discriminate Hs.
  - (* ClickCompleteToday *)
    apply (blockedInv_sameWait s); [exact Hs|].
    unfold handleCompletePlanDay.
    destruct (activePlanDay s); [same_wait | left; reflexivity].
  - (* ClickRetry *)
    apply blockedInv_fetch_initial; assumption.
  - (* ClickLogo *)
    apply (blockedInv_sameWait s); [exact Hs | left; reflexivity].
  - (* QuestionsSettled *)
    destruct (nth_error (pending s) i) eqn:Hc; [|apply blockedInv_settled, Hs].
    unfold fetchResume, fetchFinally.
    destruct (fcIsInitialLoad f); intros Hl Hq;
      [discriminate Hl | reflexivity].
  - (* PlanSettled *)
    apply (blockedInv_sameWait s); [exact Hs|]. destruct r; same_wait.
  - (* MaterialSettled *)
    apply (blockedInv_sameWait s); [exact Hs|]. destruct r; same_wait.
Qed.

Lemma reachable_inv s :
  reachable apiKey s -> guardInv s /\ blockedInv s.
Proof.
  induction 1 as [|s Hr [IHg IHb]|e s Hr [IHg IHb] Hst].
  - split; [left; repeat split | intros H; discriminate H].
  - split.
    + apply (guardInv_same s); [apply sameGuard_recoveryEffect | exact IHg].
    + apply blockedInv_settled, settledInv_recoveryEffect.
  - split.
    + apply guardInv_handle, IHg.
    + apply blockedInv_handle; [exact IHg | apply recoveryEffect_stable, Hst].
Qed.

(** The difficulty of every render is an integer level in [0,100]. *)
Lemma isLevel_fetch h t d n i m s :
  difficulty (fetchQuestionsToQueue h t d n i m s) = difficulty s.
Proof.
  unfold fetchQuestionsToQueue.
  destruct (prefetchingRef s); [reflexivity|]. destruct i; reflexivity.
Qed.

Lemma isLevel_calculateNewDifficulty x correct :
  isLevel x -> isLevel (Difficulty.calculateNewDifficulty x correct).
Proof.
  intros (level & Hr & ->).
  exists (Difficulty.nextLevel_spec level correct). split.
  - destruct correct;
      [apply DifficultyFacts.nextLevel_spec_up
      |apply DifficultyFacts.nextLevel_spec_down]; exact Hr.
  - apply DifficultyFacts.calculateNewDifficulty_refines, Hr.
Qed.

Lemma isLevel_handle e s :
  isLevel (difficulty s) -> isLevel (difficulty (handle apiKey e s)).
Proof.
  assert (isLevel 50%float) as H50 by (exists 50; split; [lia | reflexivity]).
  assert (forall x, isLevel (difficulty x) ->
                    isLevel (difficulty (handleCompletePlanDay x))) as Hdone
      by (intros x Hx; unfold handleCompletePlanDay;
          destruct (activePlanDay x); [exact Hx | exact H50]).
  assert (forall c m x, isLevel (difficulty x) ->
                        isLevel (difficulty (startQuiz c m x))) as Hstart
      by (intros c m x Hx; unfold startQuiz; destruct (isBlank _);
          [exact Hx | rewrite isLevel_fetch; exact Hx]).
  intros H. destruct e; cbn [handle]; auto.
  - unfold handleCreatePlan. destruct (isBlank _); exact H.
  - destruct (nth_error (studyPlan s) i); [|exact H].
    unfold handleStartPlanDay. destruct (dayStatus s0) as [[]|]; exact H.
  - destruct (truthyDay _); auto.
  - unfold handleAnswer. destruct (feedbackShown s); [exact H|].
    destruct (currentQuestion s) as [q|]; [|exact H].
    match goal with |- context [if ?b then _ else _] => destruct b end;
      rewrite ?isLevel_fetch; apply isLevel_calculateNewDifficulty, H.
  - unfold handleNext. destruct (questionQueue s);
      rewrite ?isLevel_fetch; exact H.
  - unfold retryFetch. rewrite isLevel_fetch. exact H.
  - destruct (nth_error (pending s) i); [|exact H].
    unfold fetchResume, fetchFinally, fetchFulfilled.
    destruct (fcIsInitialLoad f), (awaited apiKey f r)
      as [[|first rest]|]; exact H.
  - destruct r; exact H.
  - destruct r; exact H.
Qed.

Lemma reachable_difficulty s : reachable apiKey s -> isLevel (difficulty s).
Proof.
  induction 1 as [|s Hr IH|e s Hr IH Hst].
  - exists 50. split; [lia | reflexivity].
  - unfold recoveryEffect. destruct (questionQueue s); [exact IH|].
    destruct (isLoadingInitial s); exact IH.
  - apply isLevel_handle, IH.
Qed.

(** The states between two events are renders of the component. *)
Lemma reachable_step e s :
  reachable apiKey s -> recoveryEffect s = s -> reachable apiKey (step apiKey e s).
Proof. intros Hr Hs. apply reachable_effect, reachable_event; assumption. Qed.

Lemma run_stable es s :
  recoveryEffect s = s -> recoveryEffect (run apiKey es s) = run apiKey es s.
Proof.
  revert s. induction es as [|e es IH]; intros s Hs; [exact Hs|].
  cbn. apply IH. apply recoveryEffect_idem.
Qed.

Lemma reachable_run es s :
  reachable apiKey s -> recoveryEffect s = s -> reachable apiKey (run apiKey es s).
Proof.
  revert s. induction es as [|e es IH]; intros s Hr Hs; [exact Hr|].
  cbn. apply IH; [apply reachable_step; assumption | apply recoveryEffect_idem].
Qed.

End WithApiKey.

(** C1. In every render of the component that shows the blocking wait
    over a non-empty queue, the effect of that render pops the front of the
    queue into the current question and leaves the loading mode idle,
    without issuing a request: the outstanding requests and the guard are
    as they were. *)
Theorem C1_stuck_blocking_recovery apiKey s nextQ rest :
  reachable apiKey s ->
  loadingMode s = Blocked ->
  questionQueue s = nextQ :: rest ->
  currentQuestion (recoveryEffect s) = Some nextQ /\
  questionQueue (recoveryEffect s) = rest /\
  loadingMode (recoveryEffect s) = Idle /\
  pending (recoveryEffect s) = pending s /\
  prefetchingRef (recoveryEffect s) = prefetchingRef s.
Proof.
  intros Hr Hm Hq.
  assert (isLoadingInitial s = true) as Hl
      by (unfold loadingMode in Hm; destruct (isLoadingInitial s);
          [reflexivity | destruct (isPrefetching s); discriminate Hm]).
  destruct (reachable_inv apiKey s Hr) as [_ Hb].
  assert (isPrefetching s = false) as Hp
      by (apply Hb; [exact Hl | rewrite Hq; discriminate]).
  unfold recoveryEffect, loadingMode. rewrite Hq, Hl. cbn.
  rewrite ?Hq, ?Hp. repeat split.
Qed.

Lemma C1_stuck_blocking_recovery_witness :
  reachable Scenario.key Scenario.arrived /\
  loadingMode Scenario.arrived = Blocked /\
  questionQueue Scenario.arrived = [Scenario.q2; Scenario.q3] /\
  currentQuestion (recoveryEffect Scenario.arrived) = Some Scenario.q2 /\
  questionQueue (recoveryEffect Scenario.arrived) = [Scenario.q3] /\
  loadingMode (recoveryEffect Scenario.arrived) = Idle /\
  pending (recoveryEffect Scenario.arrived) = pending Scenario.arrived /\
  prefetchingRef (recoveryEffect Scenario.arrived)
  = prefetchingRef Scenario.arrived.
Proof.
  assert (reachable Scenario.key Scenario.arrived) as Hr.
  { apply reachable_event.
    - apply reachable_run; [apply reachable_init | reflexivity].
    - apply run_stable. reflexivity. }
  split; [exact Hr|]. split; [reflexivity|]. split; [reflexivity|].
  apply (C1_stuck_blocking_recovery Scenario.key Scenario.arrived
           Scenario.q2 [Scenario.q3] Hr); reflexivity.
Defined.

(** C2. At most one request is outstanding in any render, and the guard is
    set exactly then; a call of [fetchQuestionsToQueue] made while the
    guard is set returns the state as it is (queue, guard and both loading
    flags included), so of two calls with no settlement in between the
    second changes nothing and one request at most has reached the
    Content Source. *)
Theorem C2_single_flight apiKey s h t d n i m :
  reachable apiKey s ->
  (List.length (pending s) <= 1)%nat /\
  (prefetchingRef s = true <-> pending s <> []) /\
  (prefetchingRef s = true -> fetchQuestionsToQueue h t d n i m s = s) /\
  (forall h' t' d' n' i' m',
      fetchQuestionsToQueue h' t' d' n' i' m'
        (fetchQuestionsToQueue h t d n i m s)
      = fetchQuestionsToQueue h t d n i m s) /\
  (List.length (pending (fetchQuestionsToQueue h t d n i m s)) <= 1)%nat.
Proof.
  intros Hr. destruct (reachable_inv apiKey s Hr) as [Hg _].
  assert (forall x, guardInv x -> (List.length (pending x) <= 1)%nat) as Hlen
      by (intros x [(-> & _) | (c & -> & _)]; cbn; lia).
  split; [apply Hlen, Hg|]. split.
  - destruct Hg as [(H1 & H2 & _) | (c & H1 & H2 & _)]; rewrite H1, H2;
      split; intros H; congruence.
  - split; [apply fetch_noop|]. split; [intros; apply fetch_absorbs|].
    apply Hlen, guardInv_fetch, Hg.
Qed.

Lemma C2_single_flight_witness :
  let s := run Scenario.key Scenario.starting initialState in
  reachable Scenario.key s /\ prefetchingRef s = true /\
  (List.length (pending s) <= 1)%nat /\
  fetchQuestionsToQueue [] "Rust" 50 5 false None s = s.
Proof.
  cbv zeta.
  assert (reachable Scenario.key
            (run Scenario.key Scenario.starting initialState)) as Hr
      by (apply reachable_run; [apply reachable_init | reflexivity]).
  split; [exact Hr|]. split; [reflexivity|].
  destruct (C2_single_flight Scenario.key _ [] "Rust"%string 50%float 5
              false None Hr) as (Hlen & _ & Hnoop & _).
  split; [exact Hlen | apply Hnoop; reflexivity].
Defined.

(** C4. An accepted answer on a shown question is recorded and moves the
    difficulty to its new level without touching the queue. If the queue
    then holds at most 4 questions and the guard is clear, exactly one
    request is added: a background one, for 5 questions, at the new level.
    If the guard is set or the queue holds more than 4, no request is
    added. *)
Theorem C4_refill_trigger index now q s :
  feedbackShown s = false ->
  currentQuestion s = Some q ->
  let newDifficulty :=
    Difficulty.calculateNewDifficulty (difficulty s) (index =? correctIndex q) in
  let s' := handleAnswer index now s in
  difficulty s' = newDifficulty /\
  questionQueue s' = questionQueue s /\
  (exists item, history s' = history s ++ [item] /\
                difficultyAfter item = newDifficulty) /\
  ((List.length (questionQueue s) <= 4)%nat -> prefetchingRef s = false ->
   exists c, pending s' = pending s ++ [c] /\
             fcCount c = 5 /\ fcIsInitialLoad c = false /\
             fcDifficulty c = newDifficulty /\
             isLoadingInitial s' = isLoadingInitial s /\
             isPrefetching s' = true /\ prefetchingRef s' = true) /\
  ((4 < List.length (questionQueue s))%nat \/ prefetchingRef s = true ->
   pending s' = pending s).
Proof.
  intros Hf Hc newDifficulty s'. subst s' newDifficulty.
  unfold handleAnswer. rewrite Hf, Hc.
  cbn [prefetchingRef setDifficulty setHistory setFeedbackShown
       setSelectedOption history].
  destruct (prefetchingRef s) eqn:Hg.
  - rewrite andb_false_r. cbn.
    repeat split; eauto; intros; congruence.
  - rewrite andb_true_r.
    destruct (Nat.leb_spec (List.length (questionQueue s)) 4) as [Hle | Hgt].
    + unfold fetchQuestionsToQueue. cbn. rewrite Hg. cbn.
      repeat split; eauto.
      * intros _ _. eexists. repeat split.
      * intros [H | H]; [lia | discriminate H].
    + cbn. repeat split; eauto. intros H _. lia.
Qed.

Lemma C4_refill_trigger_witness :
  feedbackShown Scenario.answering = false /\
  currentQuestion Scenario.answering = Some Scenario.q1 /\
  List.length (questionQueue Scenario.answering) = 2%nat /\
  prefetchingRef Scenario.answering = false /\
  exists c,
    pending (handleAnswer 1 1000 Scenario.answering) = [c] /\
    fcCount c = 5 /\ fcIsInitialLoad c = false /\ fcDifficulty c = 55%float.
Proof.
  repeat (split; [reflexivity|]).
  destruct (C4_refill_trigger 1 1000 Scenario.q1 Scenario.answering
              eq_refl eq_refl) as (_ & _ & _ & Hrefill & _).
  destruct Hrefill as (c & Hp & Hn & Hi & Hd & _);
    [cbn; lia | reflexivity |].
  exists c. repeat split; assumption.
Defined.

(** C9. Whenever the guard is set, one request is outstanding, and when it
    settles, with questions, with the fallback or with an error, the rest
    of [fetchQuestionsToQueue] runs through its [finally] block and leaves
    the guard clear and no request outstanding. *)
Theorem C9_guard_release apiKey s r :
  reachable apiKey s ->
  prefetchingRef s = true ->
  exists c,
    pending s = [c] /\
    handle apiKey (QuestionsSettled 0 r) s
    = fetchResume c (awaited apiKey c r) (setPending [] s) /\
    prefetchingRef (handle apiKey (QuestionsSettled 0 r) s) = false /\
    pending (handle apiKey (QuestionsSettled 0 r) s) = [] /\
    (forall settled x, prefetchingRef (fetchResume c settled x) = false).
Proof.
  intros Hr Hg.
  destruct (reachable_inv apiKey s Hr) as [[(_ & H & _) | (c & Hp & _)] _];
    [congruence|].
  exists c. split; [exact Hp|].
  cbn [handle]. rewrite Hp. cbn [nth_error removeNth firstn skipn app].
  split; [reflexivity|].
  assert (forall settled x, prefetchingRef (fetchResume c settled x) = false)
    as Hfinally
      by (intros settled x; unfold fetchResume, fetchFinally;
          destruct (fcIsInitialLoad c); reflexivity).
  split; [apply Hfinally|]. split; [|exact Hfinally].
  unfold fetchResume, fetchFinally, fetchFulfilled.
  destruct (fcIsInitialLoad c), (awaited apiKey c r)
    as [[|first rest]|]; reflexivity.
Qed.

Lemma C9_guard_release_witness :
  let s := run "" Scenario.starting initialState in
  reachable "" s /\ prefetchingRef s = true /\
  awaited "" Scenario.blockingCall Gemini.GenerateThrows
  = Rejected "API Key is missing." /\
  prefetchingRef (handle "" (QuestionsSettled 0 Gemini.GenerateThrows) s)
  = false.
Proof.
  cbv zeta.
  assert (reachable "" (run "" Scenario.starting initialState)) as Hr
      by (apply reachable_run; [apply reachable_init | reflexivity]).
  split; [exact Hr|]. split; [reflexivity|]. split; [reflexivity|].
  destruct (C9_guard_release "" _ Gemini.GenerateThrows Hr eq_refl)
    as (c & _ & _ & Hclear & _).
  exact Hclear.
Defined.

(** C10. When a blocking fetch is fulfilled with a non-empty batch, the
    first question of the batch becomes the current question and the queue
    is the rest of the batch, whatever the queue held before; the blocking
    wait is over and the effect has nothing to recover. *)
Theorem C10_blocking_batch_replaces_queue c first rest s :
  fcIsInitialLoad c = true ->
  let s' := fetchResume c (Fulfilled (first :: rest)) s in
  currentQuestion s' = Some first /\
  questionQueue s' = rest /\
  isLoadingInitial s' = false /\
  recoveryEffect s' = s'.
Proof.
  intros Hi s'. subst s'.
  unfold fetchResume, fetchFinally, fetchFulfilled. rewrite Hi.
  repeat split.
  unfold recoveryEffect. cbn. destruct rest; reflexivity.
Qed.

Lemma C10_blocking_batch_replaces_queue_witness :
  fcIsInitialLoad Scenario.blockingCall = true /\
  questionQueue Scenario.arrived = [Scenario.q2; Scenario.q3] /\
  let s' := fetchResume Scenario.blockingCall
              (Fulfilled [Scenario.q1; Scenario.q3]) Scenario.arrived in
  currentQuestion s' = Some Scenario.q1 /\
  questionQueue s' = [Scenario.q3].
Proof.
  split; [reflexivity|]. split; [reflexivity|].
  destruct (C10_blocking_batch_replaces_queue Scenario.blockingCall
              Scenario.q1 [Scenario.q3] Scenario.arrived eq_refl)
    as (Hc & Hq & _).
  split; assumption.
Defined.

End AppFacts.

(** ** Content Source *)

Module ServiceFacts.
Import App.

Lemma tryGenerate_failure r message :
  Gemini.tryGenerate r = inl message ->
  forall apiKey c,
    awaited apiKey c r
    = if String.eqb apiKey "" then Rejected "API Key is missing."
      else Fulfilled [Gemini.fallbackQuestion].
Proof.
  intros H apiKey c. unfold awaited, Gemini.generateAdaptiveQuestions.
  rewrite H. reflexivity.
Qed.

(** C5, as the code has it. A request that fails inside the backend call
    (the call throws, the response has no text, the text is not JSON) is
    answered, when an API key is configured, with the one fallback question
    as a batch of size 1, which the fetch delivers: as the current question
    when blocking, at the back of the queue otherwise. Without an API key
    the request is rejected before the fallback applies, and the fetch
    delivers nothing. *)
Theorem C5_failure_fallback apiKey c r message :
  Gemini.tryGenerate r = inl message ->
  (apiKey <> ""%string ->
   awaited apiKey c r = Fulfilled [Gemini.fallbackQuestion] /\
   forall s,
     let s' := fetchResume c (awaited apiKey c r) s in
     if fcIsInitialLoad c
     then currentQuestion s' = Some Gemini.fallbackQuestion /\
          questionQueue s' = []
     else currentQuestion s' = currentQuestion s /\
          questionQueue s' = questionQueue s ++ [Gemini.fallbackQuestion]) /\
  (apiKey = ""%string ->
   awaited apiKey c r = Rejected "API Key is missing." /\
   forall s,
     let s' := fetchResume c (awaited apiKey c r) s in
     currentQuestion s' = currentQuestion s /\
     questionQueue s' = questionQueue s).
Proof.
  intros Hfail. rewrite (tryGenerate_failure r message Hfail apiKey c).
  split.
  - intros Hkey. apply String.eqb_neq in Hkey. rewrite Hkey.
    split; [reflexivity|]. intros s.
    unfold fetchResume, fetchFinally, fetchFulfilled.
    destruct (fcIsInitialLoad c); split; reflexivity.
  - intros ->. cbn [String.eqb].
    split; [reflexivity|]. intros s.
    unfold fetchResume, fetchFinally.
    destruct (fcIsInitialLoad c); split; reflexivity.
Qed.

Lemma C5_failure_fallback_witness :
  Gemini.tryGenerate Gemini.TextUnparsable = inl "JSON.parse failed"%string /\
  Scenario.key <> ""%string /\
  awaited Scenario.key Scenario.blockingCall Gemini.TextUnparsable
  = Fulfilled [Gemini.fallbackQuestion].
Proof.
  split; [reflexivity|].
  assert (Scenario.key <> ""%string) as Hkey by discriminate.
  split; [exact Hkey|].
  destruct (C5_failure_fallback Scenario.key Scenario.blockingCall
              Gemini.TextUnparsable _ eq_refl) as [Hconfigured _].
  exact (proj1 (Hconfigured Hkey)).
Defined.

(** C5 as stated fails when no API key is configured: the request fails,
    no fallback question is returned, and the blocking fetch of a starting
    quiz delivers nothing. *)
Lemma C5_missing_key_counterexample :
  pending (run "" Scenario.starting initialState) = [Scenario.blockingCall] /\
  awaited "" Scenario.blockingCall Gemini.GenerateThrows
  = Rejected "API Key is missing." /\
  ~ (exists batch,
        awaited "" Scenario.blockingCall Gemini.GenerateThrows
        = Fulfilled batch /\ (1 <= List.length batch)%nat) /\
  currentQuestion
    (run "" (Scenario.starting ++ [QuestionsSettled 0 Gemini.GenerateThrows])
       initialState) = None /\
  questionQueue
    (run "" (Scenario.starting ++ [QuestionsSettled 0 Gemini.GenerateThrows])
       initialState) = [].
Proof.
  split; [reflexivity|]. split; [reflexivity|]. split; [|repeat split].
  intros (batch & H & _). discriminate H.
Qed.

End ServiceFacts.

(** ** Plan Progression Tracker *)

Module PlanFacts.
Import App.

Lemma completeDay_fields k d :
  day (completeDay k d) = day d /\
  dayTopic (completeDay k d) = dayTopic d /\
  activities (completeDay k d) = activities d /\
  focus (completeDay k d) = focus d.
Proof.
  unfold completeDay.
  destruct (day d =? k); [repeat split|].
  destruct (day d =? k + 1); repeat split.
Qed.

Lemma completeDay_status k d :
  (day d = k -> dayStatus (completeDay k d) = Some completed) /\
  (day d = k + 1 -> dayStatus (completeDay k d) = Some current) /\
  (day d <> k -> day d <> k + 1 -> completeDay k d = d).
Proof.
  unfold completeDay.
  destruct (Z.eqb_spec (day d) k) as [Hk | Hk].
  - repeat split; intros; [lia | congruence].
  - destruct (Z.eqb_spec (day d) (k + 1)) as [Hk1 | Hk1];
      repeat split; intros; congruence.
Qed.

Lemma handleStartPlanDay_locked d s :
  dayStatus d = Some locked -> handleStartPlanDay d s = s.
Proof. intros H. unfold handleStartPlanDay. rewrite H. reflexivity. Qed.

(** C8. Completing the active day k keeps the plan's length and order and
    every field of every day but the status; the days numbered k become
    completed, the days numbered k+1 become current, and every other day is
    left as it is. When no day is numbered k+1, only the days numbered k
    change. *)
Theorem C8_plan_completion_frame s k :
  activePlanDay s = Some k ->
  let plan' := studyPlan (handleCompletePlanDay s) in
  List.length plan' = List.length (studyPlan s) /\
  (forall i d,
      nth_error (studyPlan s) i = Some d ->
      exists d',
        nth_error plan' i = Some d' /\
        day d' = day d /\ dayTopic d' = dayTopic d /\
        activities d' = activities d /\ focus d' = focus d /\
        (day d = k -> dayStatus d' = Some completed) /\
        (day d = k + 1 -> dayStatus d' = Some current) /\
        (day d <> k -> day d <> k + 1 -> d' = d)) /\
  ((forall d, In d (studyPlan s) -> day d <> k + 1) ->
   forall i d,
     nth_error (studyPlan s) i = Some d -> day d <> k ->
     nth_error plan' i = Some d).
Proof.
  intros Hk plan'. subst plan'.
  unfold handleCompletePlanDay. rewrite Hk.
  cbn [studyPlan setShowPlanModal setActiveMaterialContext setCurrentQuestion
       setHistory setStatus setActivePlanDay setStudyPlan].
  split; [apply length_map|]. split.
  - intros i d Hd. exists (completeDay k d).
    split; [apply map_nth_error, Hd|].
    pose proof (completeDay_fields k d) as (H1 & H2 & H3 & H4).
    pose proof (completeDay_status k d) as (H5 & H6 & H7).
    repeat split; assumption.
  - intros Hlast i d Hd Hnk.
    rewrite (map_nth_error _ _ _ Hd). f_equal.
    apply completeDay_status; [exact Hnk|].
    apply Hlast. eapply nth_error_In, Hd.
Qed.

Lemma C8_plan_completion_frame_witness :
  let s := run Scenario.key Scenario.dayOneQuiz initialState in
  activePlanDay s = Some 1 /\
  map dayStatus (studyPlan s) = [Some current; Some locked] /\
  exists d',
    nth_error (studyPlan (handleCompletePlanDay s)) 0 = Some d' /\
    dayTopic d' = "Ownership"%string /\ dayStatus d' = Some completed.
Proof.
  cbv zeta. split; [reflexivity|]. split; [reflexivity|].
  destruct (C8_plan_completion_frame
              (run Scenario.key Scenario.dayOneQuiz initialState) 1 eq_refl)
    as (_ & Hdays & _).
  destruct (Hdays 0%nat (withStatus current Scenario.rawDayOne) eq_refl)
    as (d' & Hnth & _ & Htopic & _ & _ & Hdone & _).
  exists d'. split; [exact Hnth|]. split; [exact Htopic | apply Hdone; reflexivity].
Defined.

(** The start button of a locked day is disabled, and the handler itself
    returns at once on such a day. *)
Lemma locked_day_start_is_noop apiKey i d s :
  nth_error (studyPlan s) i = Some d -> dayStatus d = Some locked ->
  enabled (ClickStartDay i) s = false /\
  handle apiKey (ClickStartDay i) s = s.
Proof.
  intros Hd Hlocked. cbn [enabled handle]. rewrite Hd, Hlocked.
  split; [apply andb_false_r | apply handleStartPlanDay_locked, Hlocked].
Qed.

(** C6, where the code departs from it. With the quiz of day 1 open and no
    question answered, the completion button is not offered, yet the button
    under the statistics ("give up and return to the plan") runs
    [handleCompletePlanDay]: day 1 becomes completed and day 2 current. *)
Theorem C6_leaving_quiz_completes_unanswered_day :
  let before := run Scenario.key Scenario.dayOneQuiz initialState in
  let after := step Scenario.key ClickLeaveQuiz before in
  feasible Scenario.key (Scenario.dayOneQuiz ++ [ClickLeaveQuiz]) initialState
  = true /\
  activePlanDay before = Some 1 /\
  history before = [] /\
  enabled ClickCompleteToday before = false /\
  map dayStatus (studyPlan before) = [Some current; Some locked] /\
  map dayStatus (studyPlan after) = [Some completed; Some current].
Proof. cbv zeta. repeat split. Qed.

End PlanFacts.

(** ** Further invariants of the session *)

Module SessionFacts.
Import App Invariants AppFacts.

Lemma history_fetch h t d n i m s :
  history (fetchQuestionsToQueue h t d n i m s) = history s.
Proof.
  unfold fetchQuestionsToQueue.
  destruct (prefetchingRef s); [reflexivity|]. destruct i; reflexivity.
Qed.

Lemma recoveryEffect_log s :
  history (recoveryEffect s) = history s /\
  difficulty (recoveryEffect s) = difficulty s.
Proof.
  unfold recoveryEffect. destruct (questionQueue s); [split; reflexivity|].
  destruct (isLoadingInitial s); split; reflexivity.
Qed.

Lemma logStep_handle apiKey e s : logStep s (handle apiKey e s).
Proof.
  assert (logStep s (resetApp s)) as Hreset
      by (apply log_reset; reflexivity).
  assert (logStep s (handleCompletePlanDay s)) as Hdone
      by (unfold handleCompletePlanDay; destruct (activePlanDay s);
          [apply log_cleared; reflexivity | exact Hreset]).
  assert (forall c m, logStep s (startQuiz c m s)) as Hstart.
  { intros c m. unfold startQuiz. destruct (isBlank _).
    - apply log_kept; reflexivity.
    - apply log_cleared; [rewrite history_fetch | rewrite isLevel_fetch];
        reflexivity. }
  destruct e; cbn [handle]; auto; try (apply log_kept; reflexivity).
  - unfold handleCreatePlan. destruct (isBlank _); apply log_kept; reflexivity.
  - destruct (nth_error (studyPlan s) i); [|apply log_kept; reflexivity].
    unfold handleStartPlanDay.
    destruct (dayStatus s0) as [[]|]; apply log_kept; reflexivity.
  - destruct (truthyDay _); auto.
  - unfold handleAnswer.
    destruct (feedbackShown s); [apply log_kept; reflexivity|].
    destruct (currentQuestion s) as [q|]; [|apply log_kept; reflexivity].
    match goal with |- context [if ?b then _ else _] => destruct b end;
      eapply log_answer;
      rewrite ?history_fetch, ?isLevel_fetch; reflexivity.
  - unfold handleNext. destruct (questionQueue s); apply log_kept;
      rewrite ?history_fetch, ?isLevel_fetch; reflexivity.
  - unfold retryFetch. apply log_kept;
      [rewrite history_fetch | rewrite isLevel_fetch]; reflexivity.
  - destruct (nth_error (pending s) i); [|apply log_kept; reflexivity].
    unfold fetchResume, fetchFinally, fetchFulfilled.
    destruct (fcIsInitialLoad f), (awaited apiKey f r) as [[|first rest]|];
      apply log_kept; reflexivity.
  - destruct r; apply log_kept; reflexivity.
  - destruct r; apply log_kept; reflexivity.
Qed.

Lemma historyInv_nil s : history s = [] -> historyInv s.
Proof.
  intros H. unfold historyInv. rewrite H. split; [constructor|].
  split.
  - intros l a E. destruct l; discriminate E.
  - intros l1 a b l2 E. destruct l1; discriminate E.
Qed.

Lemma historyInv_step s s' :
  isLevel (difficulty s) -> historyInv s -> logStep s s' -> historyInv s'.
Proof.
  intros Hlevel (Hok & Hlast & Hchain) Hstep.
  destruct Hstep as [Hh Hd | Hh _ | Hh _ | item Hh Hd Hb Hc Ha];
    try (apply historyInv_nil; exact Hh).
  - unfold historyInv. rewrite Hh, Hd. repeat split; assumption.
  - unfold historyInv. rewrite Hh, Hd. split; [|split].
    + apply Forall_app. split; [exact Hok|].
      constructor; [|constructor].
      unfold recordOk. rewrite Hb. repeat split; assumption.
    + intros l a E. apply app_inj_tail in E. destruct E as [_ ->].
      reflexivity.
    + intros l1 a b l2 E. destruct l2 as [|x l2].
      * change (l1 ++ [a; b]) with (l1 ++ [a] ++ [b]) in E.
        rewrite app_assoc in E. apply app_inj_tail in E.
        destruct E as [E ->]. rewrite Hb. symmetry. eapply Hlast, E.
      * destruct (exists_last (l := x :: l2)) as (l' & z & El');
          [discriminate|].
        rewrite El' in E.
        change (l1 ++ a :: b :: l' ++ [z])
          with (l1 ++ (a :: b :: l') ++ [z]) in E.
        rewrite app_assoc in E. apply app_inj_tail in E.
        destruct E as [E _]. eapply Hchain, E.
Qed.

Section WithApiKey.

Variable apiKey : string.

Lemma reachable_historyInv s : reachable apiKey s -> historyInv s.
Proof.
  induction 1 as [|s Hr IH|e s Hr IH Hst].
  - apply historyInv_nil. reflexivity.
  - destruct (recoveryEffect_log s) as [Hh Hd].
    apply (historyInv_step s);
      [eapply reachable_difficulty, Hr | exact IH | apply log_kept; assumption].
  - apply (historyInv_step s);
      [eapply reachable_difficulty, Hr | exact IH | apply logStep_handle].
Qed.

End WithApiKey.

End SessionFacts.

(** ** The answer log and the chart *)

Module LogFacts.
Import App Invariants AppFacts SessionFacts DifficultyFacts.

Lemma recordOk_after h : recordOk h -> isLevel (difficultyAfter h).
Proof.
  intros (Hb & _ & ->). apply isLevel_calculateNewDifficulty, Hb.
Qed.

Lemma level_eqb_refl x : isLevel x -> PrimFloat.eqb x x = true.
Proof.
  intros (level & Hr & ->). revert level Hr.
  check_levels ltac:(vm_compute; reflexivity).
Qed.

Lemma length_mapi {A B : Type} (f : A -> nat -> B) i l :
  List.length (mapi f i l) = List.length l.
Proof.
  revert i. induction l as [|a l IH]; intros i; cbn; [|rewrite IH]; reflexivity.
Qed.

Lemma Forall_mapi {A B : Type} (P : A -> Prop) (Q : B -> Prop)
    (f : A -> nat -> B) i l :
  (forall a n, P a -> Q (f a n)) -> Forall P l -> Forall Q (mapi f i l).
Proof.
  intros Hf H. revert i.
  induction H as [|a l Ha Hl IH]; intros i; cbn; constructor; auto.
Qed.

Lemma nth_error_last {A : Type} (l : list A) a :
  nth_error l (List.length l - 1) = Some a -> exists l', l = l' ++ [a].
Proof.
  intros H. destruct l as [|x l]; [discriminate H|].
  destruct (exists_last (l := x :: l)) as (l' & z & E); [discriminate|].
  exists l'. rewrite E in *. rewrite length_app in H. cbn in H.
  rewrite nth_error_app2 in H by lia.
  replace (List.length l' + 1 - 1 - List.length l')%nat with 0%nat in H by lia.
  injection H as ->. reflexivity.
Qed.

Section WithApiKey.

Variable apiKey : string.

(** X1. In every render the difficulty is an integer level between 0 and
    100, and so are the levels before and after every answer of the log. *)
Theorem X1_levels_stay_in_range s :
  reachable apiKey s ->
  isLevel (difficulty s) /\
  Forall (fun h => isLevel (difficultyBefore h) /\ isLevel (difficultyAfter h))
    (history s).
Proof.
  intros Hr. split; [apply (reachable_difficulty apiKey), Hr|].
  destruct (reachable_historyInv apiKey s Hr) as (Hok & _).
  eapply Forall_impl; [|exact Hok].
  intros h Hh. split; [apply Hh | apply recordOk_after, Hh].
Qed.

(** X2. The answer log is consistent in every render: each record is
    marked correct exactly when the chosen index is the correct one, its
    level after is the update of its level before, each record starts at
    the level the previous one ended at, and the last one ends at the
    current difficulty. *)
Theorem X2_answer_log_is_chained s :
  reachable apiKey s ->
  Forall (fun h =>
            isCorrect h = (userAnswerIndex h =? hCorrectIndex h) /\
            difficultyAfter h
            = Difficulty.calculateNewDifficulty (difficultyBefore h)
                (isCorrect h)) (history s) /\
  (forall l1 a b l2,
      history s = l1 ++ a :: b :: l2 -> difficultyBefore b = difficultyAfter a) /\
  (forall l a, history s = l ++ [a] -> difficultyAfter a = difficulty s).
Proof.
  intros Hr.
  destruct (reachable_historyInv apiKey s Hr) as (Hok & Hlast & Hchain).
  split; [|split; assumption].
  eapply Forall_impl; [|exact Hok]. intros h Hh. apply Hh.
Qed.

(** X3. For the log and the difficulty of any render, the chart plots the
    initial point and one point per answer, all at levels between 0 and
    100: the extra "current" point is never added. *)
Theorem X3_chart_has_one_point_per_answer s :
  reachable apiKey s ->
  List.length (Chart.data (history s) (difficulty s))
  = S (List.length (history s)) /\
  Forall (fun p => isLevel (Chart.level p))
    (Chart.data (history s) (difficulty s)).
Proof.
  intros Hr.
  destruct (reachable_historyInv apiKey s Hr) as (Hok & Hlast & _).
  pose proof (reachable_difficulty apiKey s Hr) as Hlevel.
  assert (Chart.data (history s) (difficulty s)
          = Chart.mkPoint "初始" 50 None ::
            mapi (fun h i =>
                    Chart.mkPoint (Chart.questionName i) (difficultyAfter h)
                      (Some (isCorrect h))) 0 (history s)) as ->.
  { unfold Chart.data.
    destruct (nth_error (history s) (List.length (history s) - 1))
      as [lastItem|] eqn:E; [|reflexivity].
    destruct (nth_error_last _ _ E) as (l & El).
    rewrite (Hlast l lastItem El), (level_eqb_refl _ Hlevel), andb_false_r.
    reflexivity. }
  split; [cbn; rewrite length_mapi; reflexivity|].
  constructor; [exists 50; split; [lia | reflexivity]|].
  eapply Forall_mapi; [|exact Hok].
  intros h n Hh. apply recordOk_after, Hh.
Qed.

End WithApiKey.

Lemma sample_reachable es :
  reachable Scenario.key (run Scenario.key es initialState).
Proof. apply reachable_run; [apply reachable_init | reflexivity]. Qed.

Lemma answeredTwice_reachable : reachable Scenario.key Samples.answeredTwice.
Proof.
  replace Samples.answeredTwice
    with (run Scenario.key
            (Scenario.starting ++
             [QuestionsSettled 0
                (Gemini.TextParsed [Scenario.q1; Scenario.q2; Scenario.q3]);
              ClickOption 1 1000; ClickNext; ClickOption 3 2000])
            initialState)
    by (vm_compute; reflexivity).
  apply sample_reachable.
Qed.

Lemma X1_levels_stay_in_range_witness :
  reachable Scenario.key Samples.answeredTwice /\
  difficulty Samples.answeredTwice = 51%float /\
  isLevel (difficulty Samples.answeredTwice).
Proof.
  split; [exact answeredTwice_reachable|]. split; [vm_compute; reflexivity|].
  exact (proj1 (X1_levels_stay_in_range Scenario.key _ answeredTwice_reachable)).
Defined.

Lemma X2_answer_log_is_chained_witness :
  reachable Scenario.key Samples.answeredTwice /\
  map difficultyBefore (history Samples.answeredTwice) = [50; 55]%float /\
  map difficultyAfter (history Samples.answeredTwice) = [55; 51]%float /\
  forall l a,
    history Samples.answeredTwice = l ++ [a] ->
    difficultyAfter a = difficulty Samples.answeredTwice.
Proof.
  split; [exact answeredTwice_reachable|].
  split; [vm_compute; reflexivity|]. split; [vm_compute; reflexivity|].
  exact (proj2 (proj2 (X2_answer_log_is_chained Scenario.key _
                         answeredTwice_reachable))).
Defined.

Lemma X3_chart_has_one_point_per_answer_witness :
  reachable Scenario.key Samples.answeredTwice /\
  map Chart.name
    (Chart.data (history Samples.answeredTwice)
       (difficulty Samples.answeredTwice))
  = ["初始"; "Q1"; "Q2"]%string /\
  List.length
    (Chart.data (history Samples.answeredTwice)
       (difficulty Samples.answeredTwice)) = 3%nat.
Proof.
  split; [exact answeredTwice_reachable|]. split; [vm_compute; reflexivity|].
  exact (proj1 (X3_chart_has_one_point_per_answer Scenario.key _
                  answeredTwice_reachable)).
Defined.

End LogFacts.

(** ** Queue discipline *)

Module QueueFacts.
Import App Invariants AppFacts SessionFacts LogFacts.

Lemma recoveryEffect_queue s :
  questionQueue (recoveryEffect s) = questionQueue s \/
  (isLoadingInitial s = true /\
   questionQueue (recoveryEffect s) = tl (questionQueue s)).
Proof.
  unfold recoveryEffect. destruct (questionQueue s) eqn:E;
    [left; exact E|].
  destruct (isLoadingInitial s); [right; split; reflexivity | left; exact E].
Qed.

Lemma recoveryEffect_quiet s :
  isLoadingInitial s = false -> recoveryEffect s = s.
Proof.
  intros H. unfold recoveryEffect. rewrite H.
  destruct (questionQueue s); reflexivity.
Qed.

(** X4. The recovery effect settles in one run: running it again changes
    nothing, after it no blocking wait is left over a non-empty queue, and
    it touches neither the outstanding requests, the guard, the answer log
    nor the difficulty. *)
Theorem X4_recovery_effect_settles s :
  recoveryEffect (recoveryEffect s) = recoveryEffect s /\
  (loadingMode (recoveryEffect s) = Blocked ->
   questionQueue (recoveryEffect s) = []) /\
  pending (recoveryEffect s) = pending s /\
  prefetchingRef (recoveryEffect s) = prefetchingRef s /\
  history (recoveryEffect s) = history s /\
  difficulty (recoveryEffect s) = difficulty s.
Proof.
  split; [apply recoveryEffect_idem|]. split.
  - intros H. apply settledInv_recoveryEffect.
    unfold loadingMode in H.
    destruct (isLoadingInitial (recoveryEffect s)); [reflexivity|].
    destruct (isPrefetching (recoveryEffect s)); discriminate H.
  - destruct (sameGuard_recoveryEffect s) as (Hp & Hg & _).
    destruct (recoveryEffect_log s) as (Hh & Hd).
    repeat split; assumption.
Qed.

Lemma handleAnswer_shows_feedback index now s :
  feedbackShown (handleAnswer index now s) = true.
Proof.
  unfold handleAnswer. destruct (feedbackShown s) eqn:E; [exact E|].
  destruct (currentQuestion s) as [q|]; [|reflexivity].
  match goal with |- context [if ?b then _ else _] => destruct b end;
    [|reflexivity].
  unfold fetchQuestionsToQueue. cbn [prefetchingRef setDifficulty setHistory
    setFeedbackShown setSelectedOption].
  destruct (prefetchingRef s); reflexivity.
Qed.

(** X5. An answer is taken once per question: whatever the state, a second
    submission right after a first one is ignored, whichever option and
    time it carries. *)
Theorem X5_second_answer_is_ignored index now index' now' s :
  handleAnswer index' now' (handleAnswer index now s)
  = handleAnswer index now s.
Proof.
  unfold handleAnswer at 1. rewrite handleAnswer_shows_feedback. reflexivity.
Qed.

(** X6. The queue is only consumed at the front and only filled at the
    back. After any event on a settled render the queue is what it was, or
    its tail, or empty, or, when a request settles with a batch, the old
    queue with the batch at its back, possibly less its front, or the tail
    of the batch of a blocking request. *)
Theorem X6_queue_discipline apiKey e s :
  recoveryEffect s = s ->
  questionQueue (step apiKey e s) = questionQueue s \/
  questionQueue (step apiKey e s) = tl (questionQueue s) \/
  questionQueue (step apiKey e s) = [] \/
  exists i c r batch,
    e = QuestionsSettled i r /\
    nth_error (pending s) i = Some c /\
    awaited apiKey c r = Fulfilled batch /\
    (questionQueue (step apiKey e s) = questionQueue s ++ batch \/
     questionQueue (step apiKey e s) = tl (questionQueue s ++ batch) \/
     (fcIsInitialLoad c = true /\
      questionQueue (step apiKey e s) = tl batch)).
Proof.
  intros Hst. apply recoveryEffect_stable in Hst. unfold step.
  assert (forall x, questionQueue x = questionQueue s ->
            questionQueue (recoveryEffect x) = questionQueue s \/
            questionQueue (recoveryEffect x) = tl (questionQueue s) \/
            questionQueue (recoveryEffect x) = [] \/
            exists i c r batch,
              e = QuestionsSettled i r /\
              nth_error (pending s) i = Some c /\
              awaited apiKey c r = Fulfilled batch /\
              (questionQueue (recoveryEffect x) = questionQueue s ++ batch \/
               questionQueue (recoveryEffect x) = tl (questionQueue s ++ batch) \/
               (fcIsInitialLoad c = true /\
                questionQueue (recoveryEffect x) = tl batch))) as Hsame.
  { intros x Hx. destruct (recoveryEffect_queue x) as [H | [_ H]];
      rewrite H, Hx; auto. }
  assert (forall x, questionQueue x = [] ->
            questionQueue (recoveryEffect x) = []) as Hnil.
  { intros x Hx. destruct (recoveryEffect_queue x) as [H | [_ H]];
      rewrite H, Hx; reflexivity. }
  assert (forall c m,
            questionQueue (startQuiz c m s) = questionQueue s \/
            questionQueue (startQuiz c m s) = []) as Hstart.
  { intros c m. unfold startQuiz. destruct (isBlank _); [left; reflexivity|].
    right. rewrite fetch_questionQueue. reflexivity. }
  assert (questionQueue (handleCompletePlanDay s) = questionQueue s \/
          questionQueue (handleCompletePlanDay s) = []) as Hdone.
  { unfold handleCompletePlanDay.
    destruct (activePlanDay s); [left | right]; reflexivity. }
  destruct e; cbn [handle];
    try (apply Hsame; reflexivity);
    try (right; right; left; apply Hnil; reflexivity).
  - destruct (Hstart None None) as [H | H]; [apply Hsame, H|].
    right; right; left. apply Hnil, H.
  - destruct (Hstart None None) as [H | H]; [apply Hsame, H|].
    right; right; left. apply Hnil, H.
  - apply Hsame. unfold handleCreatePlan.
    destruct (isBlank _); reflexivity.
  - apply Hsame. destruct (nth_error (studyPlan s) i); [|reflexivity].
    unfold handleStartPlanDay. destruct (dayStatus s0) as [[]|]; reflexivity.
  - match goal with |- context [startQuiz ?c ?m s] =>
      destruct (Hstart c m) as [H | H] end; [apply Hsame, H|].
    right; right; left. apply Hnil, H.
  - destruct (truthyDay _).
    + destruct Hdone as [H | H]; [apply Hsame, H|].
      right; right; left. apply Hnil, H.
    + right; right; left. apply Hnil. reflexivity.
  - apply Hsame. unfold handleAnswer.
    destruct (feedbackShown s); [reflexivity|].
    destruct (currentQuestion s); [|reflexivity].
    match goal with |- context [if ?b then _ else _] => destruct b end;
      rewrite ?fetch_questionQueue; reflexivity.
  - unfold handleNext. destruct (questionQueue s) as [|q rest] eqn:Hq.
    + left. apply Hnil. rewrite fetch_questionQueue. exact Hq.
    + right; left. rewrite recoveryEffect_quiet; [cbn; rewrite Hq; reflexivity|].
      cbn. destruct (isLoadingInitial s) eqn:Hl; [|reflexivity].
      unfold settledInv in Hst. rewrite Hq in Hst.
      discriminate (Hst Hl).
  - destruct Hdone as [H | H]; [apply Hsame, H|].
    right; right; left. apply Hnil, H.
  - apply Hsame. unfold retryFetch. apply fetch_questionQueue.
  - destruct (nth_error (pending s) i) as [c|] eqn:Hc;
      [|apply Hsame; reflexivity].
    destruct (awaited apiKey c r) as [batch|msg] eqn:Hr.
    + right; right; right. exists i, c, r, batch.
      split; [reflexivity|]. split; [exact Hc|]. split; [exact Hr|].
      unfold fetchResume, fetchFinally, fetchFulfilled.
      destruct (fcIsInitialLoad c) eqn:Hi.
      * destruct batch as [|first rest].
        -- rewrite recoveryEffect_quiet by reflexivity. left. reflexivity.
        -- rewrite recoveryEffect_quiet by reflexivity.
           right; right. split; reflexivity.
      * match goal with |- context [recoveryEffect ?x] =>
          destruct (recoveryEffect_queue x) as [H | [_ H]] end;
          rewrite H; destruct batch; [left | left | right; left | right; left];
          reflexivity.
    + apply Hsame. unfold fetchResume, fetchFinally.
      destruct (fcIsInitialLoad c); reflexivity.
  - apply Hsame. destruct r; reflexivity.
  - apply Hsame. destruct r; reflexivity.
Qed.

Lemma X6_queue_discipline_witness :
  recoveryEffect Scenario.waiting = Scenario.waiting /\
  questionQueue
    (step Scenario.key
       (QuestionsSettled 0 (Gemini.TextParsed [Scenario.q2; Scenario.q3]))
       Scenario.waiting) = [Scenario.q3] /\
  (questionQueue
     (step Scenario.key
        (QuestionsSettled 0 (Gemini.TextParsed [Scenario.q2; Scenario.q3]))
        Scenario.waiting) = questionQueue Scenario.waiting \/
   questionQueue
     (step Scenario.key
        (QuestionsSettled 0 (Gemini.TextParsed [Scenario.q2; Scenario.q3]))
        Scenario.waiting) = tl (questionQueue Scenario.waiting) \/
   questionQueue
     (step Scenario.key
        (QuestionsSettled 0 (Gemini.TextParsed [Scenario.q2; Scenario.q3]))
        Scenario.waiting) = [] \/
   exists i c r batch,
     QuestionsSettled 0 (Gemini.TextParsed [Scenario.q2; Scenario.q3])
     = QuestionsSettled i r /\
     nth_error (pending Scenario.waiting) i = Some c /\
     awaited Scenario.key c r = Fulfilled batch /\
     (questionQueue
        (step Scenario.key
           (QuestionsSettled 0 (Gemini.TextParsed [Scenario.q2; Scenario.q3]))
           Scenario.waiting) = questionQueue Scenario.waiting ++ batch \/
      questionQueue
        (step Scenario.key
           (QuestionsSettled 0 (Gemini.TextParsed [Scenario.q2; Scenario.q3]))
           Scenario.waiting) = tl (questionQueue Scenario.waiting ++ batch) \/
      (fcIsInitialLoad c = true /\
       questionQueue
         (step Scenario.key
            (QuestionsSettled 0 (Gemini.TextParsed [Scenario.q2; Scenario.q3]))
            Scenario.waiting) = tl batch))).
Proof.
  assert (recoveryEffect Scenario.waiting = Scenario.waiting) as Hst
      by (vm_compute; reflexivity).
  split; [exact Hst|]. split; [vm_compute; reflexivity|].
  exact (X6_queue_discipline Scenario.key _ Scenario.waiting Hst).
Defined.

(** X7. "Next" on an empty queue shows the blocking wait and keeps the
    current question. With the guard clear it issues exactly one blocking
    request, for 5 questions at the current difficulty on the topic of the
    day; with the guard set it issues none and waits for the outstanding
    request. *)
Theorem X7_next_on_empty_queue s :
  questionQueue s = [] ->
  isLoadingInitial (handleNext s) = true /\
  questionQueue (handleNext s) = [] /\
  currentQuestion (handleNext s) = currentQuestion s /\
  feedbackShown (handleNext s) = false /\
  (prefetchingRef s = false ->
   pending (handleNext s)
   = pending s ++
     [mkFetchCall (queryTopic s) (difficulty s)
        (map question (sliceLast 5 (history s))) 5
        (orUndefined (activeMaterialContext s)) true]) /\
  (prefetchingRef s = true -> pending (handleNext s) = pending s).
Proof.
  intros Hq. unfold handleNext. rewrite Hq.
  unfold fetchQuestionsToQueue.
  cbn [prefetchingRef setIsLoadingInitial setSelectedOption setFeedbackShown].
  destruct (prefetchingRef s); repeat split; try exact Hq;
    intros H; try discriminate H; reflexivity.
Qed.

Lemma X7_next_on_empty_queue_witness :
  questionQueue Scenario.waiting = [] /\
  isLoadingInitial (handleNext Scenario.waiting) = true /\
  pending (handleNext Scenario.waiting) = pending Scenario.waiting.
Proof.
  assert (questionQueue Scenario.waiting = []) as Hq
      by (vm_compute; reflexivity).
  split; [exact Hq|].
  destruct (X7_next_on_empty_queue Scenario.waiting Hq)
    as (Hl & _ & _ & _ & _ & Hp).
  split; [exact Hl | apply Hp; vm_compute; reflexivity].
Defined.

Section WithApiKey.

Variable apiKey : string.

Lemma badgeInv_same s s' : sameGuard s s' -> badgeInv s -> badgeInv s'.
Proof.
  intros (Hp & _ & Hb) H c Hc Hi. rewrite Hb. apply (H c); congruence.
Qed.

Lemma badgeInv_fetch h t d n i m s :
  guardInv s -> badgeInv s -> badgeInv (fetchQuestionsToQueue h t d n i m s).
Proof.
  intros Hg Hb. destruct (prefetchingRef s) eqn:E.
  - rewrite fetch_noop by exact E. exact Hb.
  - destruct Hg as [(Hp & _) | (c & _ & H & _)]; [|congruence].
    intros c Hc Hi. rewrite fetch_starts, Hp in Hc by exact E.
    injection Hc as <-. cbn in Hi. subst i.
    unfold fetchQuestionsToQueue. rewrite E. reflexivity.
Qed.

Lemma badgeInv_handle e s :
  guardInv s -> badgeInv s -> badgeInv (handle apiKey e s).
Proof.
  intros Hg Hb. destruct e; cbn [handle];
    try (revert Hb; apply badgeInv_same; same_guard).
  - unfold startQuiz. destruct (isBlank _); [exact Hb|].
    apply badgeInv_fetch;
      [revert Hg; apply guardInv_same | revert Hb; apply badgeInv_same];
      same_guard.
  - unfold startQuiz. destruct (isBlank _); [exact Hb|].
    apply badgeInv_fetch;
      [revert Hg; apply guardInv_same | revert Hb; apply badgeInv_same];
      same_guard.
  - unfold handleCreatePlan. destruct (isBlank _); [exact Hb|].
    revert Hb. apply badgeInv_same. same_guard.
  - destruct (nth_error (studyPlan s) i); [|exact Hb].
    revert Hb. apply badgeInv_same, sameGuard_handleStartPlanDay.
  - unfold startQuiz. destruct (isBlank _); [exact Hb|].
    apply badgeInv_fetch;
      [revert Hg; apply guardInv_same | revert Hb; apply badgeInv_same];
      same_guard.
  - revert Hb. apply badgeInv_same.
    destruct (truthyDay _);
      [apply sameGuard_handleCompletePlanDay | apply sameGuard_resetApp].
  - unfold handleAnswer. destruct (feedbackShown s); [exact Hb|].
    destruct (currentQuestion s) as [q|].
    + match goal with |- badgeInv (if ?b then _ else _) => destruct b end;
        [apply badgeInv_fetch;
           [revert Hg; apply guardInv_same | revert Hb; apply badgeInv_same]
        | revert Hb; apply badgeInv_same]; same_guard.
    + revert Hb. apply badgeInv_same. same_guard.
  - unfold handleNext. destruct (questionQueue s);
      [apply badgeInv_fetch;
         [revert Hg; apply guardInv_same | revert Hb; apply badgeInv_same]
      | revert Hb; apply badgeInv_same]; same_guard.
  - revert Hb. apply badgeInv_same, sameGuard_handleCompletePlanDay.
  - apply badgeInv_fetch; assumption.
  - destruct (nth_error (pending s) i) as [c|] eqn:Hc; [|exact Hb].
    pose proof (pending_index _ _ _ Hg Hc) as ->.
    pose proof (guardInv_settle c (awaited apiKey c r) s Hg Hc)
      as [(Hp & _) | (c' & _ & Hg' & _)].
    + intros c' Hc'. rewrite Hp in Hc'. discriminate Hc'.
    + exfalso. revert Hg'.
      unfold fetchResume, fetchFinally. destruct (fcIsInitialLoad c);
        discriminate.
  - revert Hb. apply badgeInv_same. destruct r; same_guard.
  - revert Hb. apply badgeInv_same. destruct r; same_guard.
Qed.

Lemma reachable_badgeInv s : reachable apiKey s -> badgeInv s.
Proof.
  induction 1 as [|s Hr IH|e s Hr IH Hst].
  - intros c Hc. discriminate Hc.
  - revert IH. apply badgeInv_same, sameGuard_recoveryEffect.
  - apply badgeInv_handle; [apply (reachable_inv apiKey), Hr | exact IH].
Qed.

(** X10. In every render the "preparing next" badge is on exactly while a
    background request is outstanding. *)
Theorem X10_badge_tracks_background_request s :
  reachable apiKey s ->
  (isPrefetching s = true <->
   exists c, pending s = [c] /\ fcIsInitialLoad c = false).
Proof.
  intros Hr. split.
  - intros Hb.
    destruct (reachable_inv apiKey s Hr)
      as [[(_ & _ & H) | (c & Hp & _ & Hi)] _]; [congruence|].
    exists c. split; [exact Hp | apply Hi, Hb].
  - intros (c & Hp & Hi). exact (reachable_badgeInv s Hr c Hp Hi).
Qed.

End WithApiKey.

Lemma X10_badge_tracks_background_request_witness :
  reachable Scenario.key Scenario.waiting /\
  isPrefetching Scenario.waiting = true /\
  exists c, pending Scenario.waiting = [c] /\ fcIsInitialLoad c = false.
Proof.
  assert (reachable Scenario.key Scenario.waiting) as Hr
      by apply sample_reachable.
  split; [exact Hr|].
  assert (isPrefetching Scenario.waiting = true) as Hb
      by (vm_compute; reflexivity).
  split; [exact Hb|].
  exact (proj1 (X10_badge_tracks_background_request Scenario.key _ Hr) Hb).
Defined.

Section Deliveries.

Variable apiKey : string.

Lemma settle_only_request c r s :
  pending s = [c] ->
  handle apiKey (QuestionsSettled 0 r) s
  = fetchResume c (awaited apiKey c r) (setPending [] s).
Proof. intros Hp. cbn [handle]. rewrite Hp. reflexivity. Qed.


(** X8. A blocking wait ends at the next non-empty delivery, whichever
    request brings it: when the one outstanding request of a settled render
    that shows the wait is fulfilled with a non-empty batch, the next
    settled render shows the first question of the batch, queues the rest,
    is idle, and has the guard clear. *)
Theorem X8_wait_ends_on_delivery s c r first rest :
  reachable apiKey s ->
  recoveryEffect s = s ->
  isLoadingInitial s = true ->
  pending s = [c] ->
  awaited apiKey c r = Fulfilled (first :: rest) ->
  currentQuestion (step apiKey (QuestionsSettled 0 r) s) = Some first /\
  questionQueue (step apiKey (QuestionsSettled 0 r) s) = rest /\
  loadingMode (step apiKey (QuestionsSettled 0 r) s) = Idle /\
  pending (step apiKey (QuestionsSettled 0 r) s) = [] /\
  prefetchingRef (step apiKey (QuestionsSettled 0 r) s) = false.
Proof.
  intros Hr Hst Hl Hp Hdel.
  pose proof (recoveryEffect_stable s Hst Hl) as Hq.
  destruct (reachable_inv apiKey s Hr) as [Hg _].
  unfold step. rewrite (settle_only_request c r s Hp), Hdel.
  unfold fetchResume, fetchFinally, fetchFulfilled.
  destruct (fcIsInitialLoad c) eqn:Hi.
  - assert (isPrefetching s = false) as Hb.
    { destruct Hg as [(_ & _ & H) | (c' & Hp' & _ & H)]; [exact H|].
      rewrite Hp in Hp'. injection Hp' as <-.
      destruct (isPrefetching s); [|reflexivity].
      rewrite (H eq_refl) in Hi. discriminate Hi. }
    rewrite recoveryEffect_quiet by reflexivity.
    unfold loadingMode. cbn. rewrite Hb. repeat split.
  - unfold recoveryEffect, loadingMode. cbn. rewrite Hq, Hl. cbn.
    repeat split.
Qed.

(** X9. An empty delivery leaves the learner waiting. When the background
    request a blocking wait relies on is fulfilled with no question, or is
    rejected, the next settled render still shows the wait, over an empty
    queue, with nothing outstanding; and in such a render the page offers
    neither an option, nor "next", nor "retry", nor the completion button,
    and no request is left to settle. *)
Theorem X9_empty_delivery_keeps_waiting s c r :
  reachable apiKey s ->
  recoveryEffect s = s ->
  isLoadingInitial s = true ->
  pending s = [c] ->
  fcIsInitialLoad c = false ->
  awaited apiKey c r = Fulfilled [] \/
  (exists message, awaited apiKey c r = Rejected message) ->
  loadingMode (step apiKey (QuestionsSettled 0 r) s) = Blocked /\
  questionQueue (step apiKey (QuestionsSettled 0 r) s) = [] /\
  pending (step apiKey (QuestionsSettled 0 r) s) = [] /\
  prefetchingRef (step apiKey (QuestionsSettled 0 r) s) = false /\
  forall e,
    enabled e (step apiKey (QuestionsSettled 0 r) s) = true ->
    match e with
    | ClickOption _ _ | ClickNext | ClickCompleteToday | ClickRetry
    | QuestionsSettled _ _ => False
    | _ => True
    end.
Proof.
  intros Hr Hst Hl Hp Hi Hdel.
  pose proof (recoveryEffect_stable s Hst Hl) as Hq.
  unfold step. rewrite (settle_only_request c r s Hp).
  set (s' := recoveryEffect _).
  assert (isLoadingInitial s' = true /\ questionQueue s' = [] /\
          pending s' = [] /\ prefetchingRef s' = false) as (Hl' & Hq' & Hp' & Hg').
  { subst s'. unfold fetchResume, fetchFinally, fetchFulfilled.
    rewrite Hi.
    destruct Hdel as [-> | (message & ->)];
      unfold recoveryEffect; cbn; rewrite ?app_nil_r, Hq; cbn;
      repeat split; assumption. }
  split; [unfold loadingMode; rewrite Hl'; reflexivity|].
  repeat (split; [assumption|]).
  intros e He. destruct e; try exact I; cbn [enabled] in He;
    unfold questionShown in He; rewrite ?Hl', ?Hp' in He;
    cbn in He; rewrite ?andb_false_r in He; discriminate He.
Qed.


End Deliveries.

Lemma waiting_facts :
  reachable Scenario.key Scenario.waiting /\
  recoveryEffect Scenario.waiting = Scenario.waiting /\
  isLoadingInitial Scenario.waiting = true /\
  pending Scenario.waiting = [Samples.refillCall].
Proof.
  split; [apply sample_reachable|]. repeat split; vm_compute; reflexivity.
Qed.

Lemma X8_wait_ends_on_delivery_witness :
  reachable Scenario.key Scenario.waiting /\
  isLoadingInitial Scenario.waiting = true /\
  pending Scenario.waiting = [Samples.refillCall] /\
  currentQuestion
    (step Scenario.key
       (QuestionsSettled 0 (Gemini.TextParsed [Scenario.q2; Scenario.q3]))
       Scenario.waiting) = Some Scenario.q2 /\
  loadingMode
    (step Scenario.key
       (QuestionsSettled 0 (Gemini.TextParsed [Scenario.q2; Scenario.q3]))
       Scenario.waiting) = Idle.
Proof.
  destruct waiting_facts as (Hr & Hst & Hl & Hp).
  repeat (split; [assumption|]).
  destruct (X8_wait_ends_on_delivery Scenario.key Scenario.waiting
              Samples.refillCall
              (Gemini.TextParsed [Scenario.q2; Scenario.q3])
              Scenario.q2 [Scenario.q3] Hr Hst Hl Hp eq_refl)
    as (Hc & _ & Hm & _).
  split; assumption.
Defined.

Lemma X9_empty_delivery_keeps_waiting_witness :
  reachable Scenario.key Scenario.waiting /\
  isLoadingInitial Scenario.waiting = true /\
  pending Scenario.waiting = [Samples.refillCall] /\
  awaited Scenario.key Samples.refillCall (Gemini.TextParsed [])
  = Fulfilled [] /\
  loadingMode
    (step Scenario.key (QuestionsSettled 0 (Gemini.TextParsed []))
       Scenario.waiting) = Blocked /\
  pending
    (step Scenario.key (QuestionsSettled 0 (Gemini.TextParsed []))
       Scenario.waiting) = [].
Proof.
  destruct waiting_facts as (Hr & Hst & Hl & Hp).
  repeat (split; [assumption|]). split; [reflexivity|].
  destruct (X9_empty_delivery_keeps_waiting Scenario.key Scenario.waiting
              Samples.refillCall (Gemini.TextParsed [])
              Hr Hst Hl Hp eq_refl (or_introl eq_refl))
    as (Hm & _ & Hp' & _).
  split; assumption.
Defined.


End QueueFacts.

(** ** The plan as a ladder *)

Module LadderFacts.
Import App Ladder.

Lemma nth_error_mapi {A B : Type} (f : A -> nat -> B) i l k :
  nth_error (mapi f i l) k = option_map (fun a => f a (i + k)%nat) (nth_error l k).
Proof.
  revert i k. induction l as [|a l IH]; intros i k.
  - destruct k; reflexivity.
  - destruct k as [|k]; cbn.
    + rewrite Nat.add_0_r. reflexivity.
    + rewrite IH. rewrite Nat.add_succ_r. reflexivity.
Qed.

Lemma rung_zero i : rung 0 i = if (i =? 0)%nat then current else locked.
Proof. unfold rung. destruct i; reflexivity. Qed.

(** X12. When a plan arrives, whatever statuses the backend sent, its
    first day becomes current and all the others locked, in the same order
    and with their other fields untouched; if the backend numbered the days
    1, 2, ... the plan is a ladder with nothing completed. *)
Theorem X12_new_plan_is_a_ladder rawPlan s :
  isGeneratingPlan (planSettled (Fulfilled rawPlan) s) = false /\
  List.length (studyPlan (planSettled (Fulfilled rawPlan) s))
  = List.length rawPlan /\
  (forall i,
      nth_error (studyPlan (planSettled (Fulfilled rawPlan) s)) i
      = option_map (withStatus (rung 0 i)) (nth_error rawPlan i)) /\
  ((forall i d, nth_error rawPlan i = Some d -> day d = Z.of_nat i + 1) ->
   isLadder 0 (studyPlan (planSettled (Fulfilled rawPlan) s))).
Proof.
  assert (forall i,
             nth_error (studyPlan (planSettled (Fulfilled rawPlan) s)) i
             = option_map (withStatus (rung 0 i)) (nth_error rawPlan i)) as Hnth.
  { intros i. unfold planSettled.
    cbn [studyPlan setStudyPlan setIsGeneratingPlan].
    rewrite nth_error_mapi. cbn [Nat.add].
    destruct (nth_error rawPlan i); cbn [option_map];
      rewrite ?rung_zero; reflexivity. }
  split; [reflexivity|]. split.
  - unfold planSettled. cbn [studyPlan setStudyPlan setIsGeneratingPlan].
    apply LogFacts.length_mapi.
  - split; [exact Hnth|].
    intros Hnum i d Hd. rewrite Hnth in Hd.
    destruct (nth_error rawPlan i) as [d0|] eqn:E; [|discriminate Hd].
    injection Hd as <-. split; [apply (Hnum i d0 E) | reflexivity].
Qed.

(** X13. Completing the current day of a ladder moves the ladder up by one
    rung: the days before stay completed, the active day becomes completed,
    the next day, if any, becomes the one current day, and the rest stays
    locked; the plan modal is reopened on the dashboard. *)
Theorem X13_completion_climbs_the_ladder done s :
  isLadder done (studyPlan s) ->
  activePlanDay s = Some (Z.of_nat done + 1) ->
  isLadder (S done) (studyPlan (handleCompletePlanDay s)) /\
  activePlanDay (handleCompletePlanDay s) = None /\
  status (handleCompletePlanDay s) = IDLE /\
  showPlanModal (handleCompletePlanDay s) = true.
Proof.
  intros Hladder Hactive. unfold handleCompletePlanDay. rewrite Hactive.
  split; [|repeat split].
  cbn [studyPlan setShowPlanModal setActiveMaterialContext setCurrentQuestion
       setHistory setStatus setActivePlanDay setStudyPlan].
  intros i d' Hd'. rewrite nth_error_map in Hd'.
  destruct (nth_error (studyPlan s) i) as [d|] eqn:E; [|discriminate Hd'].
  injection Hd' as <-. destruct (Hladder i d E) as [Hday Hst].
  unfold completeDay, rung in *.
  destruct (Z.eqb_spec (day d) (Z.of_nat done + 1)) as [H1 | H1].
  - assert (i = done) as -> by lia.
    cbn [day dayStatus withStatus]. split; [exact Hday|].
    replace (done <? S done)%nat with true
      by (symmetry; apply Nat.ltb_lt; lia). reflexivity.
  - destruct (Z.eqb_spec (day d) (Z.of_nat done + 1 + 1)) as [H2 | H2].
    + assert (i = S done) as -> by lia.
      cbn [day dayStatus withStatus]. split; [exact Hday|].
      rewrite Nat.ltb_irrefl, Nat.eqb_refl. reflexivity.
    + split; [exact Hday|]. rewrite Hst. f_equal.
      destruct (Nat.ltb_spec i done) as [Hlt | Hge].
      * replace (i <? S done)%nat with true
          by (symmetry; apply Nat.ltb_lt; lia). reflexivity.
      * replace (i =? done)%nat with false
          by (symmetry; apply Nat.eqb_neq; lia).
        replace (i <? S done)%nat with false
          by (symmetry; apply Nat.ltb_ge; lia).
        replace (i =? S done)%nat with false
          by (symmetry; apply Nat.eqb_neq; lia).
        reflexivity.
Qed.

(** X14. In a ladder the plan modal lets the learner start the current day
    only; starting it records its number as the active day, closes the
    modal, opens the material view and leaves the plan as it is. *)
Theorem X14_only_the_current_day_starts apiKey done i s :
  isLadder done (studyPlan s) ->
  enabled (ClickStartDay i) s = true ->
  i = done /\
  activePlanDay (handle apiKey (ClickStartDay i) s)
  = Some (Z.of_nat done + 1) /\
  status (handle apiKey (ClickStartDay i) s) = MATERIAL_VIEW /\
  showPlanModal (handle apiKey (ClickStartDay i) s) = false /\
  studyPlan (handle apiKey (ClickStartDay i) s) = studyPlan s.
Proof.
  intros Hladder He. cbn [enabled handle] in *.
  destruct (nth_error (studyPlan s) i) as [d|] eqn:E;
    [|rewrite andb_false_r in He; discriminate He].
  destruct (Hladder i d E) as [Hday Hst]. rewrite Hst in He.
  unfold rung in *.
  destruct (i <? done)%nat;
    [rewrite andb_false_r in He; discriminate He|].
  destruct (Nat.eqb_spec i done) as [-> | Hne];
    [|rewrite andb_false_r in He; discriminate He].
  unfold handleStartPlanDay. rewrite Hst, Hday. repeat split.
Qed.

Lemma sample_plan_is_ladder :
  isLadder 0
    (studyPlan (run Scenario.key Scenario.dayOneQuiz initialState)).
Proof.
  intros i d. destruct i as [|[|i]]; vm_compute; intros H;
    [injection H as <- | injection H as <- | destruct i; discriminate H];
    split; reflexivity.
Qed.

Lemma X13_completion_climbs_the_ladder_witness :
  isLadder 0 (studyPlan (run Scenario.key Scenario.dayOneQuiz initialState)) /\
  activePlanDay (run Scenario.key Scenario.dayOneQuiz initialState)
  = Some (Z.of_nat 0 + 1) /\
  isLadder 1
    (studyPlan
       (handleCompletePlanDay
          (run Scenario.key Scenario.dayOneQuiz initialState))).
Proof.
  split; [exact sample_plan_is_ladder|].
  assert (activePlanDay (run Scenario.key Scenario.dayOneQuiz initialState)
          = Some (Z.of_nat 0 + 1)) as Ha by (vm_compute; reflexivity).
  split; [exact Ha|].
  exact (proj1 (X13_completion_climbs_the_ladder 0 _ sample_plan_is_ladder Ha)).
Defined.

Lemma planReady_is_ladder : isLadder 0 (studyPlan Samples.planReady).
Proof.
  intros i d. destruct i as [|[|i]]; vm_compute; intros H;
    [injection H as <- | injection H as <- | destruct i; discriminate H];
    split; reflexivity.
Qed.

Lemma X14_only_the_current_day_starts_witness :
  isLadder 0 (studyPlan Samples.planReady) /\
  enabled (ClickStartDay 0) Samples.planReady = true /\
  enabled (ClickStartDay 1) Samples.planReady = false /\
  activePlanDay (handle Scenario.key (ClickStartDay 0) Samples.planReady)
  = Some (Z.of_nat 0 + 1).
Proof.
  split; [exact planReady_is_ladder|].
  assert (enabled (ClickStartDay 0) Samples.planReady = true) as He
      by (vm_compute; reflexivity).
  split; [exact He|]. split; [vm_compute; reflexivity|].
  destruct (X14_only_the_current_day_starts Scenario.key 0 0 _
              planReady_is_ladder He) as (_ & Ha & _).
  exact Ha.
Defined.

End LadderFacts.

(** ** The other services and their callers *)

Module MoreServiceFacts.
Import App Services.

Lemma queryTopic_of_day t sub : isBlank (t ++ ": " ++ sub) = false.
Proof.
  unfold isBlank. induction t as [|c t IH]; [reflexivity|].
  cbn [append list_ascii_of_string forallb] in *. rewrite IH.
  apply andb_false_r.
Qed.

Lemma queryTopic_not_empty t sub : String.eqb (t ++ ": " ++ sub) "" = false.
Proof. destruct t; reflexivity. Qed.

(** X15. A plan request that fails is answered in two ways. With an API
    key the service returns the empty plan, and the caller stores it over
    whatever plan there was; without one the service throws, and the caller
    keeps the plan it had. Either way the modal stops showing the
    spinner. *)
Theorem X15_failed_plan_request apiKey planTopic level r s :
  (forall days, r <> Parsed days) ->
  isGeneratingPlan
    (planSettled (generateStudyPlan apiKey planTopic level r) s) = false /\
  (apiKey <> ""%string ->
   studyPlan (planSettled (generateStudyPlan apiKey planTopic level r) s) = []) /\
  (apiKey = ""%string ->
   studyPlan (planSettled (generateStudyPlan apiKey planTopic level r) s)
   = studyPlan s).
Proof.
  intros Hfail. unfold generateStudyPlan.
  destruct (String.eqb_spec apiKey "") as [-> | Hkey].
  - repeat split. intros H. contradiction H. reflexivity.
  - destruct r as [| | |days]; [| | |contradiction (Hfail days eq_refl)];
      repeat split; intros H; try reflexivity; contradiction.
Qed.

Lemma X15_failed_plan_request_witness :
  (forall days, @Unparsable (list StudyPlanDay) <> Parsed days) /\
  studyPlan Samples.planReady <> [] /\
  studyPlan
    (planSettled (generateStudyPlan Scenario.key "Rust" 50 Unparsable)
       Samples.planReady) = [].
Proof.
  assert (forall days, @Unparsable (list StudyPlanDay) <> Parsed days) as Hf
      by (intros days; discriminate).
  split; [exact Hf|]. split; [vm_compute; discriminate|].
  destruct (X15_failed_plan_request Scenario.key "Rust" 50 Unparsable
              Samples.planReady Hf) as (_ & Hkey & _).
  apply Hkey. discriminate.
Defined.

(** X16. The quiz of a plan day is asked about whatever text the material
    view shows, placeholders included. If the material request of a day
    fails, the view shows a placeholder (the service's with an API key, the
    caller's without), and "start practice" then issues, when the guard is
    clear, one blocking request for 5 questions on "topic: day topic" with
    that placeholder as its source material. *)
Theorem X16_placeholder_becomes_source_material apiKey d r s :
  dayStatus d <> Some locked ->
  prefetchingRef s = false ->
  (forall material, r <> Parsed material) ->
  let shown :=
    materialSettled
      (generateStudyMaterial apiKey (topic s) (dayTopic d) (focus d)
         (difficulty s) r)
      (handleStartPlanDay d s) in
  let placeholder :=
    if String.eqb apiKey ""
    then "加载学习材料失败。请直接尝试答题。"%string
    else "生成深度学习材料时出错，请直接开始测验。"%string in
  studyMaterial shown = Some (mkStudyMaterialContent placeholder) /\
  isLoadingMaterial shown = false /\
  status (handle apiKey ClickStartPractice shown) = QUIZ /\
  pending (handle apiKey ClickStartPractice shown)
  = pending s ++
    [mkFetchCall (topic s ++ ": " ++ dayTopic d) (difficulty s)
       (map question (sliceLast 5 (history s))) 5 (Some placeholder) true].
Proof.
  intros Hd Hg Hfail shown placeholder.
  assert (handleStartPlanDay d s
          = s |> setActivePlanDay (Some (day d)) |> setShowPlanModal false
              |> setIsLoadingMaterial true |> setStatus MATERIAL_VIEW
              |> setStudyMaterial None |> setActiveMaterialContext None
              |> setCurrentDayFocus (Some (mkDayFocus (dayTopic d) (focus d))))
    as Hstart.
  { unfold handleStartPlanDay.
    destruct (dayStatus d) as [[]|]; try reflexivity. contradiction Hd.
    reflexivity. }
  assert (studyMaterial shown = Some (mkStudyMaterialContent placeholder) /\
          isLoadingMaterial shown = false /\
          topic shown = topic s /\ difficulty shown = difficulty s /\
          history shown = history s /\ pending shown = pending s /\
          prefetchingRef shown = prefetchingRef s /\
          currentDayFocus shown = Some (mkDayFocus (dayTopic d) (focus d)))
    as (Hm & Hl & Ht & Hdiff & Hh & Hp & Hg' & Hf).
  { subst shown placeholder. rewrite Hstart. unfold generateStudyMaterial.
    destruct (String.eqb apiKey "").
    - repeat split.
    - destruct r as [| | |material];
        [| | |contradiction (Hfail material eq_refl)]; repeat split. }
  clearbody shown placeholder.
  split; [exact Hm|]. split; [exact Hl|].
  cbn [handle]. unfold startQuiz, queryTopic. rewrite Hf, Hm, Ht.
  cbn [subTopic option_map markdown orElse].
  rewrite queryTopic_not_empty, queryTopic_of_day.
  unfold fetchQuestionsToQueue.
  cbn [prefetchingRef setQuestionQueue setHistory setStatus].
  rewrite Hg', Hg. cbn. rewrite Hp, Hdiff, Hh. split; reflexivity.
Qed.

Lemma X16_placeholder_becomes_source_material_witness :
  dayStatus (withStatus current Scenario.rawDayOne) <> Some locked /\
  prefetchingRef Samples.planReady = false /\
  let shown :=
    materialSettled
      (generateStudyMaterial Scenario.key "Rust" "Ownership" "moves" 50 NoText)
      (handleStartPlanDay (withStatus current Scenario.rawDayOne)
         Samples.planReady) in
  pending (handle Scenario.key ClickStartPractice shown)
  = [mkFetchCall "Rust: Ownership" 50 [] 5
       (Some "生成深度学习材料时出错，请直接开始测验。"%string) true].
Proof.
  assert (dayStatus (withStatus current Scenario.rawDayOne) <> Some locked)
    as Hd by discriminate.
  split; [exact Hd|]. split; [vm_compute; reflexivity|].
  assert (forall material, @NoText StudyMaterialContent <> Parsed material)
    as Hf by (intros material; discriminate).
  exact (proj2 (proj2 (proj2
           (X16_placeholder_becomes_source_material Scenario.key
              (withStatus current Scenario.rawDayOne) NoText Samples.planReady
              Hd eq_refl Hf)))).
Defined.

(** X17. The explanation card always ends with a text. Once the request
    of [handleExplain] settles, with an explanation, an empty answer, a
    backend error or a missing API key, the card shows the selected text
    with a non-empty explanation or message, is no longer loading, and the
    selection popup is closed. *)
Theorem X17_explanation_card_gets_a_text apiKey popup contextTopic r c :
  Explain.selectionPopup c = Some popup ->
  let settled :=
    Explain.explainSettled (Explain.popupText popup)
      (explainConcept apiKey (Explain.popupText popup) contextTopic r)
      (Explain.handleExplain c) in
  Explain.selectionPopup settled = None /\
  exists shownText,
    shownText <> ""%string /\
    Explain.explanationData settled
    = Some (Explain.mkExplanationData (Explain.popupText popup)
              (Some shownText) false).
Proof.
  intros Hp settled. subst settled.
  unfold Explain.handleExplain, Explain.explainSettled. rewrite Hp.
  split; [reflexivity|]. cbn [Explain.selectionPopup].
  unfold explainConcept.
  destruct (String.eqb apiKey ""); [eexists; split; [|reflexivity]; discriminate|].
  destruct r as [|[t|]]; try (eexists; split; [|reflexivity]; discriminate).
  cbn [orElse]. destruct (String.eqb_spec t "") as [-> | Ht];
    eexists; (split; [|reflexivity]); [discriminate | exact Ht].
Qed.

Lemma X17_explanation_card_gets_a_text_witness :
  let c := Explain.mkCard (Some (Explain.mkSelectionPopup 10 20 "borrow")) None in
  Explain.selectionPopup c = Some (Explain.mkSelectionPopup 10 20 "borrow") /\
  Explain.explanationData
    (Explain.explainSettled "borrow"
       (explainConcept Scenario.key "borrow" "Rust" (TextOf (Some ""%string)))
       (Explain.handleExplain c))
  = Some (Explain.mkExplanationData "borrow" (Some "无法解释该内容。"%string) false) /\
  exists shownText,
    shownText <> ""%string /\
    Explain.explanationData
      (Explain.explainSettled "borrow"
         (explainConcept "" "borrow" "Rust" TextThrows)
         (Explain.handleExplain c))
    = Some (Explain.mkExplanationData "borrow" (Some shownText) false).
Proof.
  cbv zeta. split; [reflexivity|]. split; [reflexivity|].
  exact (proj2 (X17_explanation_card_gets_a_text "" 
                  (Explain.mkSelectionPopup 10 20 "borrow") "Rust" TextThrows
                  (Explain.mkCard
                     (Some (Explain.mkSelectionPopup 10 20 "borrow")) None)
                  eq_refl)).
Defined.

End MoreServiceFacts.

(** ** The daily streak *)

Module StreakFacts.
Import Streak.

Lemma digits_from_positive d p :
  digitsValue (NilEmpty.string_of_uint d) (Some (Z.pos p))
  = Some (Z.pos (Pos.of_uint_acc d p)).
Proof.
  revert p. induction d as [|d IH|d IH|d IH|d IH|d IH|d IH|d IH|d IH|d IH|d IH];
    intros p; [reflexivity|..];
    cbn [NilEmpty.string_of_uint digitsValue Pos.of_uint_acc];
    match goal with
    | |- match digitOf ?c with _ => _ end = _ =>
        let v := eval vm_compute in (digitOf c) in
        change (digitOf c) with v; cbv iota beta
    end;
    match goal with
    | |- digitsValue _ (Some ?a) = Some (Z.pos (Pos.of_uint_acc _ ?q)) =>
        replace a with (Z.pos q) by lia; apply IH
    end.
Qed.

Lemma digits_from_zero d :
  digitsValue (NilEmpty.string_of_uint d) (Some 0)
  = Some (Z.of_N (Pos.of_uint d)).
Proof.
  induction d as [|d IH|d IH|d IH|d IH|d IH|d IH|d IH|d IH|d IH|d IH];
    [reflexivity|..];
    cbn [NilEmpty.string_of_uint digitsValue Pos.of_uint];
    match goal with
    | |- match digitOf ?c with _ => _ end = _ =>
        let v := eval vm_compute in (digitOf c) in
        change (digitOf c) with v; cbv iota beta
    end;
    [exact IH | ..];
    match goal with
    | |- digitsValue _ (Some ?a) = Some (Z.of_N (N.pos (Pos.of_uint_acc _ ?q))) =>
        replace a with (Z.pos q) by lia; apply digits_from_positive
    end.
Qed.

Lemma parseInt_digits d :
  d <> Decimal.Nil ->
  parseInt (NilEmpty.string_of_uint d) = Some (Z.of_N (Pos.of_uint d)) /\
  digitsValue (NilEmpty.string_of_uint d) None = Some (Z.of_N (Pos.of_uint d)).
Proof.
  intros Hd. rewrite <- digits_from_zero.
  destruct d; [contradiction Hd; reflexivity|..]; split; reflexivity.
Qed.

Lemma to_uint_not_nil p : Pos.to_uint p <> Decimal.Nil.
Proof.
  intros H. pose proof (DecimalPos.Unsigned.of_to p) as E.
  rewrite H in E. discriminate E.
Qed.

(** What is written with [toString] is read back by [parseInt]. *)
Lemma parseInt_toString z : parseInt (toString (Some z)) = Some z.
Proof.
  destruct z as [|p|p]; [reflexivity|..]; cbn [toString Z.to_int].
  - unfold NilZero.string_of_int, NilZero.string_of_uint.
    pose proof (to_uint_not_nil p) as Hd.
    destruct (parseInt_digits _ Hd) as [H _].
    rewrite DecimalPos.Unsigned.of_to in H.
    destruct (Pos.to_uint p); [contradiction Hd; reflexivity|..]; exact H.
  - unfold NilZero.string_of_int, NilZero.string_of_uint.
    pose proof (to_uint_not_nil p) as Hd.
    destruct (parseInt_digits _ Hd) as [_ H].
    rewrite DecimalPos.Unsigned.of_to in H.
    assert (parseInt (String "-" (NilEmpty.string_of_uint (Pos.to_uint p)))
            = Some (Z.neg p)) as Hneg
        by (unfold parseInt; cbn [skipWhiteSpace App.isWhiteSpace];
            rewrite H; reflexivity).
    destruct (Pos.to_uint p); [contradiction Hd; reflexivity|..]; exact Hneg.
Qed.

(** X18. A check-in survives a reload. When the learner, not yet checked
    in, checks in on a day with a streak of n, the cells become n+1 and
    checked in; reloading the page the same day restores exactly these
    cells from storage, reloading it the next day restores the streak n+1
    not yet checked in, reloading it any later day restarts from 0; and a
    second check-in the same day changes neither the cells nor the
    storage. *)
Theorem X18_check_in_round_trip n today cells store :
  isCheckedIn cells = false ->
  streak cells = Some n ->
  0 <= n < 2 ^ 53 - 1 ->
  let after := handleCheckIn today (cells, store) in
  fst after = {| streak := Some (n + 1); isCheckedIn := true |} /\
  (forall yesterday, initStreak today yesterday (snd after) = fst after) /\
  (forall nextDay,
      nextDay <> today ->
      initStreak nextDay today (snd after)
      = {| streak := Some (n + 1); isCheckedIn := false |}) /\
  (forall laterDay dayBefore,
      laterDay <> today -> dayBefore <> today ->
      initStreak laterDay dayBefore (snd after)
      = {| streak := Some 0; isCheckedIn := false |}) /\
  handleCheckIn today after = after.
Proof.
  intros Hc Hs _ after. subst after. unfold handleCheckIn.
  rewrite Hc, Hs. cbn [option_map fst snd isCheckedIn].
  assert (forall a b,
             initStreak a b
               {| lastCheckInDate := Some today;
                  streakCount := Some (toString (Some (n + 1))) |}
             = if String.eqb today a
               then {| streak := Some (n + 1); isCheckedIn := true |}
               else if String.eqb today b
                    then {| streak := Some (n + 1); isCheckedIn := false |}
                    else {| streak := Some 0; isCheckedIn := false |}) as Hinit.
  { intros a b. unfold initStreak.
    cbn [lastCheckInDate streakCount isDate App.orElse].
    replace (String.eqb (toString (Some (n + 1))) "") with false.
    - rewrite parseInt_toString. reflexivity.
    - symmetry. apply String.eqb_neq. intros H.
      pose proof (parseInt_toString (n + 1)) as E. rewrite H in E.
      discriminate E. }
  split; [reflexivity|]. split; [|split; [|split; [|reflexivity]]].
  - intros yesterday. rewrite Hinit, String.eqb_refl. reflexivity.
  - intros nextDay Hne. rewrite Hinit, String.eqb_refl.
    replace (String.eqb today nextDay) with false
      by (symmetry; apply String.eqb_neq; congruence).
    reflexivity.
  - intros laterDay dayBefore H1 H2. rewrite Hinit.
    replace (String.eqb today laterDay) with false
      by (symmetry; apply String.eqb_neq; congruence).
    replace (String.eqb today dayBefore) with false
      by (symmetry; apply String.eqb_neq; congruence).
    reflexivity.
Qed.

Lemma X18_check_in_round_trip_witness :
  let after :=
    handleCheckIn "Tue Nov 03 2026"
      ({| streak := Some 9; isCheckedIn := false |},
       {| lastCheckInDate := Some "Mon Nov 02 2026"%string;
          streakCount := Some "9"%string |}) in
  0 <= 9 < 2 ^ 53 - 1 /\
  snd after
  = {| lastCheckInDate := Some "Tue Nov 03 2026"%string;
       streakCount := Some "10"%string |} /\
  initStreak "Wed Nov 04 2026" "Tue Nov 03 2026" (snd after)
  = {| streak := Some 10; isCheckedIn := false |}.
Proof.
  cbv zeta. split; [lia|]. split; [reflexivity|].
  destruct (X18_check_in_round_trip 9 "Tue Nov 03 2026"
              {| streak := Some 9; isCheckedIn := false |}
              {| lastCheckInDate := Some "Mon Nov 02 2026"%string;
                 streakCount := Some "9"%string |}
              eq_refl eq_refl) as (_ & _ & Hnext & _); [lia|].
  apply Hnext. discriminate.
Defined.

End StreakFacts.

(** ** The earlier revision *)

Module LegacyFacts.
Import App.











End LegacyFacts.

(** ** What the Content Source is asked *)

Module RequestFacts.
Import App Invariants AppFacts.

Lemma sliceLast_length {A : Type} n (l : list A) :
  (List.length (sliceLast n l) <= n)%nat.
Proof. unfold sliceLast. rewrite length_skipn. lia. Qed.

Lemma callOk_fetch h t d i m s :
  isLevel d -> Forall callOk (pending s) ->
  Forall callOk (pending (fetchQuestionsToQueue h t d 5 i m s)).
Proof.
  intros Hd Hok. destruct (prefetchingRef s) eqn:E.
  - rewrite fetch_noop by exact E. exact Hok.
  - rewrite fetch_starts by exact E. apply Forall_app. split; [exact Hok|].
    constructor; [|constructor]. repeat split; [exact Hd|].
    cbn [fcPreviousTopics]. rewrite length_map. apply sliceLast_length.
Qed.

Lemma callOk_removeNth i (l : list FetchCall) :
  Forall callOk l -> Forall callOk (removeNth i l).
Proof.
  intros H. revert i. unfold removeNth.
  induction H as [|c l Hc Hl IH]; intros i.
  - destruct i; constructor.
  - destruct i as [|i]; [exact Hl|].
    cbn [firstn skipn app]. constructor; [exact Hc | apply IH].
Qed.

Section WithApiKey.

Variable apiKey : string.

Lemma callOk_handle e s :
  isLevel (difficulty s) -> Forall callOk (pending s) ->
  Forall callOk (pending (handle apiKey e s)).
Proof.
  intros Hd Hok.
  assert (forall c m, Forall callOk (pending (startQuiz c m s))) as Hstart.
  { intros c m. unfold startQuiz. destruct (isBlank _); [exact Hok|].
    apply callOk_fetch; assumption. }
  destruct e; cbn [handle]; auto.
  - unfold handleCreatePlan. destruct (isBlank _); exact Hok.
  - destruct (nth_error (studyPlan s) i); [|exact Hok].
    unfold handleStartPlanDay. destruct (dayStatus s0) as [[]|]; exact Hok.
  - destruct (truthyDay _); [|exact Hok].
    unfold handleCompletePlanDay. destruct (activePlanDay s); exact Hok.
  - unfold handleAnswer. destruct (feedbackShown s); [exact Hok|].
    destruct (currentQuestion s) as [q|]; [|exact Hok].
    match goal with |- context [if ?b then _ else _] => destruct b end;
      [|exact Hok].
    apply callOk_fetch; [apply isLevel_calculateNewDifficulty, Hd | exact Hok].
  - unfold handleNext. destruct (questionQueue s); [|exact Hok].
    apply callOk_fetch; assumption.
  - unfold handleCompletePlanDay. destruct (activePlanDay s); exact Hok.
  - unfold retryFetch. apply callOk_fetch; assumption.
  - destruct (nth_error (pending s) i) as [c|]; [|exact Hok].
    unfold fetchResume, fetchFinally, fetchFulfilled.
    destruct (fcIsInitialLoad c), (awaited apiKey c r) as [[|first rest]|];
      apply callOk_removeNth, Hok.
  - destruct r; exact Hok.
  - destruct r; exact Hok.
Qed.

(** X20. Whatever the learner does, the Content Source is only ever asked
    for 5 questions at a time, at an integer level between 0 and 100, and
    with the texts of at most 5 earlier questions. *)
Theorem X20_requests_are_well_formed s c :
  reachable apiKey s ->
  In c (pending s) ->
  fcCount c = 5 /\
  isLevel (fcDifficulty c) /\
  (List.length (fcPreviousTopics c) <= 5)%nat.
Proof.
  intros Hr Hc.
  assert (Forall callOk (pending s)) as Hok.
  { clear c Hc. induction Hr as [|s Hr IH|e s Hr IH Hst].
    - constructor.
    - destruct (sameGuard_recoveryEffect s) as (-> & _). exact IH.
    - apply callOk_handle;
        [apply (reachable_difficulty apiKey), Hr | exact IH]. }
  rewrite Forall_forall in Hok. exact (Hok c Hc).
Qed.

End WithApiKey.

Lemma X20_requests_are_well_formed_witness :
  reachable Scenario.key Scenario.waiting /\
  In Samples.refillCall (pending Scenario.waiting) /\
  fcCount Samples.refillCall = 5 /\
  isLevel (fcDifficulty Samples.refillCall).
Proof.
  assert (reachable Scenario.key Scenario.waiting) as Hr
      by apply LogFacts.sample_reachable.
  split; [exact Hr|].
  assert (In Samples.refillCall (pending Scenario.waiting)) as Hc
      by (vm_compute; left; reflexivity).
  split; [exact Hc|].
  destruct (X20_requests_are_well_formed Scenario.key _ _ Hr Hc)
    as (Hn & Hl & _).
  split; assumption.
Defined.

End RequestFacts.
